(** * Flow Graph Engine client (flow_graphengine.py): a shallow embedding

    The client class [FlowGraphEngineServer] is a sequence of HTTP calls
    glued together by Python subscripting, string formatting and one
    polling loop.  The embedding keeps that shape:

    - Python values that travel through the client are the JSON fragment
      of Python ([pyval]); subscripting, iteration, truthiness and [str()]
      are written out with the exceptions Python raises;
    - the outside world (the remote service, the local file system, the
      clock and the terminal) is one explicit [state]; the service is a
      function of the whole history of effects, so that replies may change
      from one poll to the next;
    - the object's attribute dictionary [self.__dict__] lives in the same
      state: [self.x = v] is [setattr], [self.x] is [getattr];
    - a method is a function [state -> outcome A * state]; an exception
      is the outcome [Raise e], and the only loop, [while True] in
      [wait_for_job_to_complete], takes fuel and answers [Polling] when
      the fuel is spent before the loop leaves. *)

From Stdlib Require Import ZArith Ascii String List Bool Lia.
From stdpp Require Import base gmap strings list pretty.

Local Open Scope Z_scope.
Set Warnings "-register-all,-abstract-large-number".

(** ** Python values *)

Module Py.

(** The values the client handles: what [json.loads] produces, which is
    also what the driver passes in (strings, [None], nested dicts).
    A dict is kept as its items in insertion order; its keys are strings,
    as in JSON.  JSON numbers are kept as integers: the client never
    computes on a number. *)
Inductive pyval : Type :=
| VNone
| VBool (b : bool)
| VInt (z : Z)
| VStr (s : string)
| VList (l : list pyval)
| VDict (items : list (string * pyval)).

(** The exceptions the client can let escape, by Python class.  The
    module defines no exception class of its own. *)
Inductive exn : Type :=
| AssertionError
| AttributeError (name : string)
| KeyError (key : pyval)
| IndexError
| TypeError
| ValueError
| JSONDecodeError
| RequestException
| OSError.

Definition exn_class (e : exn) : string :=
  match e with
  | AssertionError => "AssertionError"
  | AttributeError _ => "AttributeError"
  | KeyError _ => "KeyError"
  | IndexError => "IndexError"
  | TypeError => "TypeError"
  | ValueError => "ValueError"
  | JSONDecodeError => "JSONDecodeError"
  | RequestException => "RequestException"
  | OSError => "OSError"
  end.

(** Pure Python expressions either give a value or raise. *)
Inductive result (A : Type) : Type :=
| Val (a : A)
| Exc (e : exn).
Arguments Val {A} a.
Arguments Exc {A} e.

(** [bool(v)], as [assert] and [if] use it. *)
Definition truthy (v : pyval) : bool :=
  match v with
  | VNone => false
  | VBool b => b
  | VInt z => negb (z =? 0)
  | VStr s => negb (String.eqb s EmptyString)
  | VList l => match l with [] => false | _ => true end
  | VDict items => match items with [] => false | _ => true end
  end.

(** *** [str()] and [repr()] *)

Definition dquote : ascii := ascii_of_nat 34.
Definition squote : ascii := ascii_of_nat 39.
Definition backslash : ascii := ascii_of_nat 92.

Fixpoint contains_char (c : ascii) (s : string) : bool :=
  match s with
  | EmptyString => false
  | String d rest => Ascii.eqb c d || contains_char c rest
  end.

Definition hex_digit (n : nat) : ascii :=
  if (n <? 10)%nat then ascii_of_nat (48 + n) else ascii_of_nat (87 + n).

(** One character inside a [repr] of a string quoted with [q]. *)
Definition repr_char (q c : ascii) : string :=
  let n := nat_of_ascii c in
  if Ascii.eqb c backslash then String backslash (String backslash EmptyString)
  else if Ascii.eqb c q then String backslash (String q EmptyString)
  else if (n =? 10)%nat then String backslash "n"
  else if (n =? 13)%nat then String backslash "r"
  else if (n =? 9)%nat then String backslash "t"
  else if ((n <? 32) || (n =? 127))%nat then
    String backslash (String "x" (String (hex_digit (n / 16)) (String (hex_digit (n mod 16)) EmptyString)))
  else String c EmptyString.

Fixpoint repr_chars (q : ascii) (s : string) : string :=
  match s with
  | EmptyString => EmptyString
  | String c rest => repr_char q c +:+ repr_chars q rest
  end.

(** [repr] of a [str]: single quotes, unless the string has a single
    quote and no double quote. *)
Definition repr_str (s : string) : string :=
  let q := if contains_char squote s && negb (contains_char dquote s)
           then dquote else squote in
  String q (repr_chars q s) +:+ String q EmptyString.

Fixpoint join (sep : string) (l : list string) : string :=
  match l with
  | [] => EmptyString
  | [x] => x
  | x :: rest => x +:+ sep +:+ join sep rest
  end.

Fixpoint py_repr (v : pyval) : string :=
  match v with
  | VNone => "None"
  | VBool true => "True"
  | VBool false => "False"
  | VInt z => pretty z
  | VStr s => repr_str s
  | VList l => "[" +:+ join ", " (map py_repr l) +:+ "]"
  | VDict items =>
      "{" +:+ join ", " (map (fun kv => repr_str (fst kv) +:+ ": " +:+ py_repr (snd kv)) items) +:+ "}"
  end.

(** [str(v)], which is what an f-string field [{v}] inserts. *)
Definition py_str (v : pyval) : string :=
  match v with
  | VStr s => s
  | _ => py_repr v
  end.

(** *** Subscripting and iteration *)

Fixpoint dict_get (items : list (string * pyval)) (k : string) : option pyval :=
  match items with
  | [] => None
  | (k', v) :: rest => if String.eqb k' k then Some v else dict_get rest k
  end.

(** [v[k]] for a string literal [k]. *)
Definition getitem (v : pyval) (k : string) : result pyval :=
  match v with
  | VDict items =>
      match dict_get items k with
      | Some x => Val x
      | None => Exc (KeyError (VStr k))
      end
  | _ => Exc TypeError
  end.

(** [v[i]] for a literal index [i >= 0] (the client only writes [[0]]). *)
Definition getindex (v : pyval) (i : nat) : result pyval :=
  match v with
  | VList l =>
      match nth_error l i with
      | Some x => Val x
      | None => Exc IndexError
      end
  | VStr s =>
      match String.get i s with
      | Some c => Val (VStr (String c EmptyString))
      | None => Exc IndexError
      end
  | VDict _ => Exc (KeyError (VInt (Z.of_nat i)))
  | _ => Exc TypeError
  end.

Fixpoint chars (s : string) : list pyval :=
  match s with
  | EmptyString => []
  | String c rest => VStr (String c EmptyString) :: chars rest
  end.

(** The items a [for x in v] loop visits. *)
Definition py_iter (v : pyval) : result (list pyval) :=
  match v with
  | VList l => Val l
  | VDict items => Val (map (fun kv => VStr (fst kv)) items)
  | VStr s => Val (chars s)
  | _ => Exc TypeError
  end.

(** *** [os.path.basename] (posixpath): what follows the last slash *)

Fixpoint basename_from (tail p : string) : string :=
  match p with
  | EmptyString => tail
  | String c rest =>
      if Ascii.eqb c "/" then basename_from rest rest else basename_from tail rest
  end.

Definition basename (p : string) : string := basename_from p p.

(** [os.path.basename(v)]: [os.fspath] refuses what is not a path. *)
Definition os_path_basename (v : pyval) : result string :=
  match v with
  | VStr p => Val (basename p)
  | _ => Exc TypeError
  end.

End Py.
Export Py.

(** ** The world the client runs in *)

Module World.

(** What a request carries besides its URL and headers: nothing, a form
    (the positional [data] dict of [requests.post]), raw bytes
    ([data=f.read()]) or a JSON document ([json=...]). *)
Inductive body : Type :=
| NoBody
| FormBody (fields : list (string * pyval))
| RawBody (data : list Byte.byte)
| JsonBody (doc : pyval).

Record request : Type := Request {
  r_method : string;
  r_url : string;
  r_headers : list (string * string);
  r_body : body;
  r_stream : bool
}.

(** What the client reads of a [requests.Response]: [status_code],
    [headers], the raw [content] (read through [iter_content]) and
    [json()], which is [None] here when the body does not decode. *)
Record response : Type := Response {
  status_code : Z;
  headers : list (string * string);
  content : list Byte.byte;
  json_body : option pyval
}.

(** Every effect the client has on the outside, in the order it happens. *)
Inductive event : Type :=
| EvRequest (r : request)
| EvPrint (line : string)
| EvSleep (seconds : Z).

(** The state a method runs in.  [trace] is newest first.  [serve] is the
    remote side: given everything that happened so far and a request it
    gives the reply, or [None] when the transport fails and [requests]
    raises.  [writable] says whether [open(path, 'wb')] succeeds.
    [self_dict] is the attribute dictionary of the one client object. *)
Record state : Type := State {
  self_dict : gmap string pyval;
  trace : list event;
  files : gmap string (list Byte.byte);
  serve : list event -> request -> option response;
  writable : string -> bool
}.

Definition with_self (d : gmap string pyval) (s : state) : state :=
  State d (trace s) (files s) (serve s) (writable s).

Definition with_event (e : event) (s : state) : state :=
  State (self_dict s) (e :: trace s) (files s) (serve s) (writable s).

Definition with_file (path : string) (data : list Byte.byte) (s : state) : state :=
  State (self_dict s) (trace s) (<[path := data]> (files s)) (serve s) (writable s).

(** The requests in a list of events, oldest first. *)
Definition requests_of (evs : list event) : list request :=
  omap (fun e => match e with EvRequest r => Some r | _ => None end) (rev evs).

End World.
Export World.

(** ** Methods as state transformers *)

Module Run.

(** How a call ends: it returns, it raises, or (only for the polling
    loop) the fuel is spent while the loop is still polling. *)
Inductive outcome (A : Type) : Type :=
| Ok (a : A)
| Raise (e : exn)
| Polling.
Arguments Ok {A} a.
Arguments Raise {A} e.
Arguments Polling {A}.

Definition M (A : Type) : Type := state -> outcome A * state.

Definition ret {A} (a : A) : M A := fun s => (Ok a, s).

Definition bind {A B} (m : M A) (k : A -> M B) : M B :=
  fun s =>
    match m s with
    | (Ok a, s1) => k a s1
    | (Raise e, s1) => (Raise e, s1)
    | (Polling, s1) => (Polling, s1)
    end.

Definition raise {A} (e : exn) : M A := fun s => (Raise e, s).

(** A pure expression evaluated inside a method. *)
Definition eval {A} (r : result A) : M A :=
  match r with
  | Val a => ret a
  | Exc e => raise e
  end.

End Run.
Export Run.

Declare Scope py_scope.
Delimit Scope py_scope with py.
Notation "x <- m ;; k" := (bind m (fun x => k))
  (at level 100, m at next level, right associativity) : py_scope.
Notation "m ;; k" := (bind m (fun _ => k))
  (at level 100, right associativity) : py_scope.
Local Open Scope py_scope.

(** ** Primitives: attributes, assert, print, sleep, files, HTTP *)

Module Prim.

(** [self.name] *)
Definition getattr (name : string) : M pyval :=
  fun s =>
    match self_dict s !! name with
    | Some v => (Ok v, s)
    | None => (Raise (AttributeError name), s)
    end.

(** [self.name = v] *)
Definition setattr (name : string) (v : pyval) : M unit :=
  fun s => (Ok tt, with_self (<[name := v]> (self_dict s)) s).

(** [assert(v)], with assertions enabled (no [-O]). *)
Definition py_assert (v : pyval) : M unit :=
  if truthy v then ret tt else raise AssertionError.

Definition print (line : string) : M unit :=
  fun s => (Ok tt, with_event (EvPrint line) s).

(** [time.sleep(seconds)]: a negative length is a [ValueError]. *)
Definition time_sleep (seconds : Z) : M unit :=
  fun s =>
    if seconds <? 0 then (Raise ValueError, s)
    else (Ok tt, with_event (EvSleep seconds) s).

(** [open(path, 'rb').read()] *)
Definition read_file (path : string) : M (list Byte.byte) :=
  fun s =>
    match files s !! path with
    | Some data => (Ok data, s)
    | None => (Raise OSError, s)
    end.

(** [open(path, 'wb')]: creates or truncates the file. *)
Definition open_wb (path : string) : M unit :=
  fun s =>
    if writable s path then (Ok tt, with_file path [] s)
    else (Raise OSError, s).

(** [f.write(chunk)] on the file opened at [path]. *)
Definition file_write (path : string) (chunk : list Byte.byte) : M unit :=
  fun s =>
    match files s !! path with
    | Some data => (Ok tt, with_file path (data ++ chunk) s)
    | None => (Raise OSError, s)
    end.

(** One [requests.get/put/post]: the request is recorded, and the reply
    is the remote side's, given what happened before this request. *)
Definition send (r : request) : M response :=
  fun s =>
    match serve s (trace s) r with
    | Some resp => (Ok resp, with_event (EvRequest r) s)
    | None => (Raise RequestException, with_event (EvRequest r) s)
    end.

(** [response.json()] *)
Definition response_json (resp : response) : M pyval :=
  match json_body resp with
  | Some j => ret j
  | None => raise JSONDecodeError
  end.

Definition lower_ascii (c : ascii) : ascii :=
  let n := nat_of_ascii c in
  if ((65 <=? n) && (n <=? 90))%nat then ascii_of_nat (n + 32) else c.

Fixpoint lower (s : string) : string :=
  match s with
  | EmptyString => EmptyString
  | String c rest => String (lower_ascii c) (lower rest)
  end.

Fixpoint header_get (hs : list (string * string)) (name : string) : option string :=
  match hs with
  | [] => None
  | (k, v) :: rest =>
      if String.eqb (lower k) (lower name) then Some v else header_get rest name
  end.

(** [response.headers[name]]: the header dict of [requests] ignores case. *)
Definition response_header (resp : response) (name : string) : M pyval :=
  match header_get (headers resp) name with
  | Some v => ret (VStr v)
  | None => raise (KeyError (VStr name))
  end.

(** [response.iter_content(chunk_size)]: the body in pieces of
    [chunk_size] bytes, the last one possibly shorter. *)
Fixpoint chunks_fuel (fuel : nat) (size : nat) (data : list Byte.byte)
  : list (list Byte.byte) :=
  match fuel with
  | O => []
  | S fuel' =>
      match data with
      | [] => []
      | _ => take size data :: chunks_fuel fuel' size (drop size data)
      end
  end.

Definition iter_content (chunk_size : nat) (resp : response) : list (list Byte.byte) :=
  chunks_fuel (length (content resp)) chunk_size (content resp).

(** A [for] loop whose body only has effects. *)
Fixpoint for_each {A} (body : A -> M unit) (l : list A) : M unit :=
  match l with
  | [] => ret tt
  | x :: rest => body x ;; for_each body rest
  end.

End Prim.
Export Prim.

(** ** The client class *)

Module FlowGraphEngineServer.

(** The dict literal [{'Authorization': f"Bearer {self.oauth_token}"}]. *)
Definition bearer (token : pyval) : list (string * string) :=
  [("Authorization"%string, "Bearer " +:+ py_str token)].

Definition token_request (client_id client_secret : pyval) : request :=
  Request "POST" "https://developer.api.autodesk.com/authentication/v2/token"
    [("Content-Type"%string, "application/x-www-form-urlencoded"%string)]
    (FormBody [("scope"%string, VStr "data:read data:create data:write code:all");
               ("grant_type"%string, VStr "client_credentials");
               ("client_id"%string, client_id);
               ("client_secret"%string, client_secret)])
    false.

Definition _generate_oauth_token : M pyval :=
  client_id <- getattr "client_id";;
  client_secret <- getattr "client_secret";;
  response <- send (token_request client_id client_secret);;
  j <- response_json response;;
  eval (getitem j "access_token").

(** [__init__(self, client_id, client_secret, queue_id='@default')] *)
Definition __init__ (client_id client_secret queue_id : pyval) : M unit :=
  setattr "client_id" client_id;;
  setattr "client_secret" client_secret;;
  v <- getattr "client_id";;
  py_assert v;;
  v <- getattr "client_secret";;
  py_assert v;;
  token <- _generate_oauth_token;;
  setattr "oauth_token" token;;
  setattr "queue_id" queue_id.

(** [FlowGraphEngineServer(client_id, client_secret, queue_id)]: a fresh
    object, then [__init__] on it. *)
Definition new (client_id client_secret queue_id : pyval) : M unit :=
  fun s => __init__ client_id client_secret queue_id (with_self ∅ s).

Definition upload_urls_request (token space_id resource_id : pyval) : request :=
  Request "GET"
    ("https://developer.api.autodesk.com/flow/storage/v1/spaces/" +:+ py_str space_id
       +:+ "/resources/" +:+ py_str resource_id +:+ "/upload-urls")
    (bearer token) NoBody false.

Definition _get_resource_upload_url (space_id resource_id : pyval) : M pyval :=
  token <- getattr "oauth_token";;
  response <- send (upload_urls_request token space_id resource_id);;
  response_json response.

Definition put_request (signedUrl : pyval) (data : list Byte.byte) : request :=
  Request "PUT" (py_str signedUrl) [] (RawBody data) false.

Definition _upload_to_signed_url (signedUrl : pyval) (path_to_file : string) : M pyval :=
  data <- read_file path_to_file;;
  response <- send (put_request signedUrl data);;
  response_header response "etag".

Definition complete_request (token space_id resource_id upload_id etag : pyval) : request :=
  Request "POST"
    ("https://developer.api.autodesk.com/flow/storage/v1/spaces/" +:+ py_str space_id
       +:+ "/uploads:complete")
    (bearer token)
    (JsonBody (VDict [("resourceId"%string, resource_id);
                      ("uploadId"%string, upload_id);
                      ("parts"%string,
                        VList [VDict [("partId"%string, VInt 1); ("etag"%string, etag)]])]))
    false.

Definition _complete_upload (space_id resource_id upload_id etag : pyval) : M pyval :=
  token <- getattr "oauth_token";;
  response <- send (complete_request token space_id resource_id upload_id etag);;
  j <- response_json response;;
  eval (getitem j "urn").

Definition upload_file (path_to_file : string) (space_id resource_id : pyval) : M pyval :=
  getInputFileUploadUrlResponse <- _get_resource_upload_url space_id resource_id;;
  urls <- eval (getitem getInputFileUploadUrlResponse "urls");;
  url0 <- eval (getindex urls 0);;
  signedUrl <- eval (getitem url0 "url");;
  inputFileEtag <- _upload_to_signed_url signedUrl path_to_file;;
  upload <- eval (getitem getInputFileUploadUrlResponse "upload");;
  upload_resource <- eval (getitem upload "resourceId");;
  upload' <- eval (getitem getInputFileUploadUrlResponse "upload");;
  upload_id <- eval (getitem upload' "id");;
  inputFileUrn <- _complete_upload space_id upload_resource upload_id inputFileEtag;;
  ret inputFileUrn.

Definition jobs_url (queue_id : pyval) : string :=
  "https://developer.api.autodesk.com/flow/compute/v1/queues/" +:+ py_str queue_id +:+ "/jobs".

Definition list_jobs_request (token queue_id : pyval) : request :=
  Request "GET" (jobs_url queue_id) (bearer token) NoBody false.

Definition list_jobs : M pyval :=
  queue_id <- getattr "queue_id";;
  token <- getattr "oauth_token";;
  response <- send (list_jobs_request token queue_id);;
  j <- response_json response;;
  eval (getitem j "results").

Definition submit_request (token queue_id job_json : pyval) : request :=
  Request "POST" (jobs_url queue_id) (bearer token) (JsonBody job_json) false.

Definition submit_job (job_json : pyval) : M pyval :=
  queue_id <- getattr "queue_id";;
  token <- getattr "oauth_token";;
  response <- send (submit_request token queue_id job_json);;
  j <- response_json response;;
  eval (getitem j "id").

Definition job_request (token queue_id job_id : pyval) : request :=
  Request "GET" (jobs_url queue_id +:+ "/" +:+ py_str job_id) (bearer token) NoBody false.

Definition get_job_data (job_id : pyval) : M pyval :=
  queue_id <- getattr "queue_id";;
  token <- getattr "oauth_token";;
  response <- send (job_request token queue_id job_id);;
  response_json response.

(** [status in ('SUCCEEDED', 'FAILED', 'CANCELED')] *)
Definition is_terminal (status : pyval) : bool :=
  match status with
  | VStr s => existsb (String.eqb s) ["SUCCEEDED"; "FAILED"; "CANCELED"]%string
  | _ => false
  end.

(** [wait_for_job_to_complete(self, job_id, sleep_seconds=5)]; [fuel]
    bounds the number of turns of [while True]. *)
Fixpoint wait_for_job_to_complete (fuel : nat) (job_id : pyval) (sleep_seconds : Z)
  : M pyval :=
  match fuel with
  | O => fun s => (Polling, s)
  | S fuel' =>
      job <- get_job_data job_id;;
      status <- eval (getitem job "status");;
      print ("Job status: " +:+ py_str status);;
      status <- eval (getitem job "status");;
      if is_terminal status then ret job
      else (time_sleep sleep_seconds;;
            wait_for_job_to_complete fuel' job_id sleep_seconds)
  end.

Definition logs_request (token queue_id job_id : pyval) : request :=
  Request "GET" (jobs_url queue_id +:+ "/" +:+ py_str job_id +:+ "/logs")
    (bearer token) NoBody false.

Definition _get_log_data (job_id : pyval) : M pyval :=
  queue_id <- getattr "queue_id";;
  token <- getattr "oauth_token";;
  response <- send (logs_request token queue_id job_id);;
  response_json response.

Definition outputs_request (token queue_id job_id : pyval) : request :=
  Request "GET" (jobs_url queue_id +:+ "/" +:+ py_str job_id +:+ "/outputs")
    (bearer token) NoBody false.

Definition _get_output_data (job_id : pyval) : M pyval :=
  queue_id <- getattr "queue_id";;
  token <- getattr "oauth_token";;
  response <- send (outputs_request token queue_id job_id);;
  response_json response.

Definition download_url_request (token space_id resourceId : pyval) : request :=
  Request "GET"
    ("https://developer.api.autodesk.com/flow/storage/v1/spaces/" +:+ py_str space_id
       +:+ "/resources/" +:+ py_str resourceId +:+ "/download-url")
    (bearer token) NoBody false.

Definition _get_download_url_for_resource (space_id resourceId : pyval) : M pyval :=
  token <- getattr "oauth_token";;
  response <- send (download_url_request token space_id resourceId);;
  response_json response.

Definition signed_get_request (signedUrl : pyval) : request :=
  Request "GET" (py_str signedUrl) [] NoBody true.

Definition _download_file_from_signed_url
    (signedUrl : pyval) (destination : string) (chunk_size : nat) : M unit :=
  response <- send (signed_get_request signedUrl);;
  if status_code response =? 200 then
    (open_wb destination;;
     for_each (file_write destination) (iter_content chunk_size response))
  else ret tt.

Definition download_file (space_id resource_id : pyval) (destination_path : string)
  : M unit :=
  signedUrl <- _get_download_url_for_resource space_id resource_id;;
  url <- eval (getitem signedUrl "url");;
  _download_file_from_signed_url url destination_path 8192.

(** The shape shared by the two download loops:
    [paths = []; for x in items: p = name(x); download(x, p); paths.append(p)]. *)
Fixpoint for_append (body : pyval -> M string) (items : list pyval) (paths : list string)
  : M (list string) :=
  match items with
  | [] => ret paths
  | x :: rest =>
      p <- body x;;
      for_append body rest (paths ++ [p])
  end.

Definition download_log (logdir : string) (log : pyval) : M string :=
  path <- eval (getitem log "path");;
  base <- eval (os_path_basename path);;
  let log_filepath := logdir +:+ "/joblog_" +:+ base in
  space_id <- eval (getitem log "spaceId");;
  resource_id <- eval (getitem log "resourceId");;
  download_file space_id resource_id log_filepath;;
  ret log_filepath.

Definition download_job_logs (job_id : pyval) (logdir : string) : M (list string) :=
  logs <- _get_log_data job_id;;
  results <- eval (getitem logs "results");;
  items <- eval (py_iter results);;
  for_append (download_log logdir) items [].

Definition download_output (outdir : string) (output : pyval) : M string :=
  path <- eval (getitem output "path");;
  base <- eval (os_path_basename path);;
  let output_filepath := outdir +:+ "/" +:+ base in
  space_id <- eval (getitem output "spaceId");;
  resource_id <- eval (getitem output "resourceId");;
  download_file space_id resource_id output_filepath;;
  ret output_filepath.

Definition download_job_outputs (job_id : pyval) (outdir : string) : M (list string) :=
  outputs <- _get_output_data job_id;;
  results <- eval (getitem outputs "results");;
  items <- eval (py_iter results);;
  for_append (download_output outdir) items [].

End FlowGraphEngineServer.
Export FlowGraphEngineServer.

(** ** The public operations, as one type *)

Module Api.

Inductive op : Type :=
| Upload_file (path_to_file : string) (space_id resource_id : pyval)
| Submit_job (job_json : pyval)
| List_jobs
| Get_job_data (job_id : pyval)
| Wait_for_job_to_complete (fuel : nat) (job_id : pyval) (sleep_seconds : Z)
| Download_file (space_id resource_id : pyval) (destination_path : string)
| Download_job_logs (job_id : pyval) (logdir : string)
| Download_job_outputs (job_id : pyval) (outdir : string).

Definition as_none (m : M unit) : M pyval := _ <- m;; ret VNone.
Definition as_list (m : M (list string)) : M pyval := l <- m;; ret (VList (map VStr l)).

(** One method call on the client object. *)
Definition call (o : op) : M pyval :=
  match o with
  | Upload_file p sp r => upload_file p sp r
  | Submit_job j => submit_job j
  | List_jobs => list_jobs
  | Get_job_data j => get_job_data j
  | Wait_for_job_to_complete fuel j secs => wait_for_job_to_complete fuel j secs
  | Download_file sp r dest => as_none (download_file sp r dest)
  | Download_job_logs j dir => as_list (download_job_logs j dir)
  | Download_job_outputs j dir => as_list (download_job_outputs j dir)
  end.

(** The two transfers that go to a signed URL instead of the service:
    the [PUT] of the bytes and the streamed [GET]. *)
Definition is_signed_transfer (r : request) : bool :=
  String.eqb (r_method r) "PUT" || r_stream r.

(** What holds of every effect of a call on an object whose attribute
    dictionary is [d]: a request to the service carries the stored token. *)
Definition event_ok (d : gmap string pyval) (e : event) : Prop :=
  match e with
  | EvRequest r =>
      if is_signed_transfer r then r_headers r = []
      else exists token, d !! "oauth_token"%string = Some token /\ r_headers r = bearer token
  | _ => True
  end.

(** A computation that leaves the object and the environment alone and
    only adds effects that are [event_ok]. *)
Definition frames_at (d : gmap string pyval) {A} (m : M A) : Prop :=
  forall s r s', self_dict s = d -> m s = (r, s') ->
    self_dict s' = d /\ serve s' = serve s /\ writable s' = writable s /\
    exists new, trace s' = new ++ trace s /\ Forall (event_ok d) new.

End Api.
Export Api.

(** ** Names for the states and replies the properties speak of *)

Module Session.

(** The attribute dictionary while [__init__] runs its two assertions. *)
Definition credentials_dict (client_id client_secret : pyval) : gmap string pyval :=
  <["client_secret"%string := client_secret]> (<["client_id"%string := client_id]> ∅).

(** The attribute dictionary of a constructed client. *)
Definition session_dict (client_id client_secret token queue_id : pyval)
  : gmap string pyval :=
  <["queue_id"%string := queue_id]>
    (<["oauth_token"%string := token]> (credentials_dict client_id client_secret)).


(** [response.json()['access_token']], as a pure expression. *)
Definition token_of (resp : response) : result pyval :=
  match json_body resp with
  | Some j => getitem j "access_token"
  | None => Exc JSONDecodeError
  end.

End Session.
Export Session.

(** ** A concrete service to run the client against *)

Module Demo.

Definition json_reply (code : Z) (j : pyval) : response :=
  Response code [] [] (Some j).

Definition str_is (v : pyval) (s : string) : bool :=
  match v with
  | VStr t => String.eqb t s
  | _ => false
  end.

Definition field_is (b : body) (k v : string) : bool :=
  match b with
  | FormBody fields =>
      match dict_get fields k with
      | Some x => str_is x v
      | None => false
      end
  | _ => false
  end.

(** How many earlier requests went to [url]. *)
Fixpoint asked (url : string) (history : list event) : nat :=
  match history with
  | [] => O
  | EvRequest r :: rest =>
      ((if String.eqb (r_url r) url then 1 else 0) + asked url rest)%nat
  | _ :: rest => asked url rest
  end.

Definition api : string := "https://developer.api.autodesk.com".

Definition record (resource path : string) : pyval :=
  VDict [("spaceId"%string, VStr "scratch:@default");
         ("resourceId"%string, VStr resource);
         ("path"%string, VStr path)].

Definition error_body : pyval :=
  VDict [("developerMessage"%string, VStr "The client_id specified does not have access to the api product");
         ("errorCode"%string, VStr "AUTH-001")].

(** A small service: one valid secret, one upload slot, one job that
    runs for two polls and then succeeds, two logs (the second one no
    longer downloadable) and one output. *)
Definition service (history : list event) (r : request) : option response :=
  let url := r_url r in
  let at_ path := String.eqb url (api +:+ path) in
  if at_ "/authentication/v2/token" then
    if field_is (r_body r) "client_secret" "s3cret" then
      Some (json_reply 200 (VDict [("access_token"%string, VStr "tok123");
                                   ("token_type"%string, VStr "Bearer");
                                   ("expires_in"%string, VInt 3599)]))
    else Some (json_reply 401 error_body)
  else if at_ "/flow/storage/v1/spaces/scratch:@default/resources/plane.usd/upload-urls" then
    Some (json_reply 200
            (VDict [("urls"%string, VList [VDict [("url"%string, VStr "https://signed.example/put/plane")]]);
                    ("upload"%string, VDict [("resourceId"%string, VStr "plane.usd");
                                             ("id"%string, VStr "upload-1")])]))
  else if String.eqb url "https://signed.example/put/plane" then
    Some (Response 200 [("ETag"%string, "9f2c"%string)] [] None)
  else if at_ "/flow/storage/v1/spaces/scratch:@default/uploads:complete" then
    Some (json_reply 200 (VDict [("urn"%string, VStr "urn:adsk.flow:plane")]))
  else if at_ "/flow/compute/v1/queues/@default/jobs" then
    match r_body r with
    | JsonBody _ => Some (json_reply 200 (VDict [("id"%string, VStr "job-7")]))
    | _ => Some (json_reply 200 (VDict [("results"%string, VList [VDict [("id"%string, VStr "job-7")]])]))
    end
  else if at_ "/flow/compute/v1/queues/@default/jobs/job-7" then
    if (asked url history <? 2)%nat
    then Some (json_reply 200 (VDict [("id"%string, VStr "job-7"); ("status"%string, VStr "RUNNING")]))
    else Some (json_reply 200 (VDict [("id"%string, VStr "job-7"); ("status"%string, VStr "SUCCEEDED")]))
  else if at_ "/flow/compute/v1/queues/@default/jobs/job-7/logs" then
    Some (json_reply 200
            (VDict [("results"%string,
                      VList [record "log-1" "logs/task-0/stdout.txt";
                             record "log-2" "logs/task-0/stderr.txt"])]))
  else if at_ "/flow/compute/v1/queues/@default/jobs/job-7/outputs" then
    Some (json_reply 200
            (VDict [("results"%string, VList [record "out-1" "outputs/planeWithTrees.usd"])]))
  else if at_ "/flow/compute/v1/queues/@default/jobs/job-8/logs" then
    Some (json_reply 200 (VDict [("results"%string, VList [])]))
  else if at_ "/flow/compute/v1/queues/@default/jobs/job-8/outputs" then
    Some (json_reply 200 (VDict [("results"%string, VList [])]))
  else if at_ "/flow/storage/v1/spaces/scratch:@default/resources/log-1/download-url" then
    Some (json_reply 200 (VDict [("url"%string, VStr "https://signed.example/get/log-1")]))
  else if at_ "/flow/storage/v1/spaces/scratch:@default/resources/log-2/download-url" then
    Some (json_reply 200 (VDict [("url"%string, VStr "https://signed.example/get/log-2")]))
  else if at_ "/flow/storage/v1/spaces/scratch:@default/resources/out-1/download-url" then
    Some (json_reply 200 (VDict [("url"%string, VStr "https://signed.example/get/out-1")]))
  else if String.eqb url "https://signed.example/get/log-1" then
    Some (Response 200 [] (list_byte_of_string "started") None)
  else if String.eqb url "https://signed.example/get/log-2" then
    Some (Response 404 [] (list_byte_of_string "NoSuchKey") None)
  else if String.eqb url "https://signed.example/get/out-1" then
    Some (Response 200 [] (list_byte_of_string "#usda 1.0") None)
  else None.

(** Before any client exists: one input file on disk. *)
Definition fresh : state :=
  State ∅ [] {[ "input-data/plane.usd"%string := list_byte_of_string "#usda 1.0" ]}
    service (fun _ => true).

Definition my_id : pyval := VStr "my-id".
Definition my_secret : pyval := VStr "s3cret".
Definition my_queue : pyval := VStr "@default".

(** After [FlowGraphEngineServer(my_id, my_secret, '@default')]. *)
Definition connected : state := snd (new my_id my_secret my_queue fresh).

End Demo.

(** ** What the polling loop observes *)

Module Polls.

(** The line [print(f"Job status: {job['status']}")] leaves behind. *)
Definition printed (status : pyval) (s : state) : state :=
  with_event (EvPrint ("Job status: " +:+ py_str status)) s.

Definition slept (seconds : Z) (s : state) : state :=
  with_event (EvSleep seconds) s.

(** [polls_to job_id secs s n final s']: from [s], [get_job_data] reports
    [n] times a status outside the terminal set, each report followed by
    the status line and the sleep, and then reports [final], whose status
    is terminal; [s'] is the state after the last status line. *)
Inductive polls_to (job_id : pyval) (secs : Z)
  : state -> nat -> pyval -> state -> Prop :=
| polls_last s job status s1 :
    get_job_data job_id s = (Ok job, s1) ->
    getitem job "status" = Val status ->
    is_terminal status = true ->
    polls_to job_id secs s O job (printed status s1)
| polls_again s job status s1 n final s' :
    get_job_data job_id s = (Ok job, s1) ->
    getitem job "status" = Val status ->
    is_terminal status = false ->
    0 <= secs ->
    polls_to job_id secs (slept secs (printed status s1)) n final s' ->
    polls_to job_id secs s (S n) final s'.

(** How many times a list of events went to sleep. *)
Fixpoint sleeps (evs : list event) : nat :=
  match evs with
  | [] => O
  | EvSleep _ :: rest => S (sleeps rest)
  | _ :: rest => sleeps rest
  end.

End Polls.
Export Polls.

(** ** Names for the upload protocol and the batch downloads *)

Module Protocol.

Definition and_then {A B} (r : result A) (k : A -> result B) : result B :=
  match r with
  | Val a => k a
  | Exc e => Exc e
  end.

(** [reply['urls'][0]['url']] *)
Definition signed_url_of (reply : pyval) : result pyval :=
  and_then (getitem reply "urls") (fun urls =>
  and_then (getindex urls 0) (fun url0 =>
  getitem url0 "url")).

(** [reply['upload']['resourceId']] and then [reply['upload']['id']] *)
Definition upload_ids (reply : pyval) : result (pyval * pyval) :=
  and_then (getitem reply "upload") (fun upload =>
  and_then (getitem upload "resourceId") (fun resource =>
  and_then (getitem reply "upload") (fun upload' =>
  and_then (getitem upload' "id") (fun upload_id =>
  Val (resource, upload_id))))).


(** The two batch downloads differ by the listing they ask for and by
    the local file name. *)
Inductive listing : Type := Logs | Outputs.

Definition listing_request (k : listing) (token queue_id job_id : pyval) : request :=
  match k with
  | Logs => logs_request token queue_id job_id
  | Outputs => outputs_request token queue_id job_id
  end.

Definition download_job (k : listing) (job_id : pyval) (dir : string) : M (list string) :=
  match k with
  | Logs => download_job_logs job_id dir
  | Outputs => download_job_outputs job_id dir
  end.

Definition download_one (k : listing) (dir : string) : pyval -> M string :=
  match k with
  | Logs => download_log dir
  | Outputs => download_output dir
  end.

Definition local_path (k : listing) (dir base : string) : string :=
  match k with
  | Logs => dir +:+ "/joblog_" +:+ base
  | Outputs => dir +:+ "/" +:+ base
  end.

(** [downloaded_each k dir records s paths s']: from [s], each record in
    turn went through [download_file], with its [spaceId] and
    [resourceId], to the local path made of [dir] and the basename of its
    [path]; [paths] are these local paths, in the order of the records. *)
Inductive downloaded_each (k : listing) (dir : string)
  : list pyval -> state -> list string -> state -> Prop :=
| downloaded_none s : downloaded_each k dir [] s [] s
| downloaded_next record p space_id resource_id rest s s1 paths s' :
    getitem record "path" = Val (VStr p) ->
    getitem record "spaceId" = Val space_id ->
    getitem record "resourceId" = Val resource_id ->
    download_file space_id resource_id (local_path k dir (basename p)) s = (Ok tt, s1) ->
    downloaded_each k dir rest s1 paths s' ->
    downloaded_each k dir (record :: rest) s (local_path k dir (basename p) :: paths) s'.

End Protocol.
Export Protocol.

(** ** Names for the listing replies *)

Module Listing.

(** The records a listing reply gives: what [for x in reply['results']]
    visits. *)
Definition records_of (reply : pyval) : result (list pyval) :=
  and_then (getitem reply "results") py_iter.

End Listing.
Export Listing.

(** ** The sample driver (fge_addtrees.py) *)

Module fge_addtrees.

(** [len(v)] *)
Definition py_len (v : pyval) : result nat :=
  match v with
  | VList l => Val (length l)
  | VDict items => Val (length items)
  | VStr s => Val (String.length s)
  | _ => Exc TypeError
  end.

(** The dict literal [job_json] of [main], with the three values it
    takes from its surroundings. *)
Definition job_json (inputFileUrn bifrostGraphUrn number_of_trees : pyval) : pyval :=
  VDict [
    ("name"%string, VStr "addTrees sample job");
    ("tags"%string, VList [VStr "sample app"]);
    ("tasks"%string, VList [
      VDict [
        ("name"%string, VStr "execute bifrost graph");
        ("type"%string, VStr "task");
        ("executor"%string, VStr "bifrost");
        ("inputs"%string, VList []);
        ("limitations"%string, VDict [("maxExecutionTimeInSeconds"%string, VInt 600)]);
        ("payload"%string, VDict [
          ("action"%string, VStr "Evaluate");
          ("options"%string, VDict [
            ("compound"%string, VStr "User::Graphs::addTrees");
            ("frames"%string, VDict [("start"%string, VInt 1); ("end"%string, VInt 1)])]);
          ("definitionFiles"%string, VList [
            VDict [("source"%string, VDict [("uri"%string, bifrostGraphUrn)]);
                   ("target"%string, VDict [("path"%string, VStr "bifrostgraph.json")])]]);
          ("ports"%string, VDict [
            ("inputPorts"%string, VList [
              VDict [("name"%string, VStr "inputFilename");
                     ("value"%string, VStr "plane.usd");
                     ("type"%string, VStr "string")];
              VDict [("name"%string, VStr "outputFilename");
                     ("value"%string, VStr "planeWithTrees.usd");
                     ("type"%string, VStr "string")];
              VDict [("name"%string, VStr "amount");
                     ("value"%string, VStr (py_str number_of_trees));
                     ("type"%string, VStr "float")]]);
            ("jobPorts"%string, VList [])]);
          ("executions"%string, VList [
            VDict [
              ("inputs"%string, VList [
                VDict [("source"%string, VDict [("uri"%string, inputFileUrn)]);
                       ("target"%string, VDict [("path"%string, VStr "plane.usd")])]]);
              ("outputs"%string, VList [
                VDict [("source"%string, VDict [("path"%string, VStr "planeWithTrees.usd")]);
                       ("target"%string, VDict [("name"%string, VStr "planeWithTrees.usd")])]]);
              ("frameId"%string, VInt 1)]])]);
        ("requirements"%string, VDict [("cpu"%string, VInt 4); ("memory"%string, VInt 30720)])]])].

(** [main(aps_client_id, aps_client_secret, number_of_trees)].  Two things
    of its surroundings are arguments here: [script_dir], the value of
    [os.path.dirname(__file__)], and [makedirs], what
    [os.makedirs(dir, exist_ok=True)] does (directories are not part of
    [state]).  [fuel] is the fuel of the polling loop. *)
Definition main (makedirs : string -> M unit) (script_dir : string) (fuel : nat)
    (aps_client_id aps_client_secret number_of_trees : pyval) : M unit :=
  new aps_client_id aps_client_secret (VStr "@default");;
  print "Uploading input files";;
  let input_dir := script_dir +:+ "/input-data" in
  inputFileUrn <- upload_file (input_dir +:+ "/plane.usd")
                    (VStr "scratch:@default") (VStr "plane.usd");;
  bifrostGraphUrn <- upload_file (input_dir +:+ "/addTrees.json")
                       (VStr "scratch:@default") (VStr "addTrees.json");;
  job_id <- submit_job (job_json inputFileUrn bifrostGraphUrn number_of_trees);;
  print ("Job submitted, id: " +:+ py_str job_id);;
  joblist <- list_jobs;;
  n <- eval (py_len joblist);;
  print ("Joblist Queue (all): " +:+ pretty n);;
  print "waiting for job to complete";;
  job <- wait_for_job_to_complete fuel job_id 5;;
  status <- eval (getitem job "status");;
  print ("job finished with status " +:+ py_str status);;
  makedirs ".outputs";;
  print "Downloading job outputs";;
  filenames <- download_job_outputs job_id ".outputs";;
  print ("Downloaded job outputs (" +:+ pretty (length filenames) +:+ "): "
           +:+ py_repr (VList (map VStr filenames)));;
  makedirs ".logs";;
  print "Downloading job logs";;
  filenames <- download_job_logs job_id ".logs";;
  print ("Downloaded job logs (" +:+ pretty (length filenames) +:+ "): "
           +:+ py_repr (VList (map VStr filenames))).



End fge_addtrees.
Export fge_addtrees.

(** ** What the client never looks at, never writes *)

Module Blind.

(** The reply [resp] with another status code. *)
Definition restatus (code : Z) (resp : response) : response :=
  Response code (headers resp) (content resp) (json_body resp).

(** The state [s] with a service that answers as the one of [s] but for
    the status codes, which [recode] rewrites at will. *)
Definition with_status (recode : list event -> request -> Z -> Z) (s : state) : state :=
  State (self_dict s) (trace s) (files s)
    (fun history r =>
       match serve s history r with
       | Some resp => Some (restatus (recode history r (status_code resp)) resp)
       | None => None
       end)
    (writable s).

(** The operations that end in a signed download. *)
Definition is_download (o : op) : bool :=
  match o with
  | Download_file _ _ _ | Download_job_logs _ _ | Download_job_outputs _ _ => true
  | _ => false
  end.

(** Computations made of attribute accesses, prints, sleeps, file reads
    and requests whose reply is used without its status code. *)
Inductive net_only : forall {A : Type}, M A -> Prop :=
| net_ret {A} (a : A) : net_only (ret a)
| net_raise {A} (e : exn) : net_only (@raise A e)
| net_polling {A} : net_only (fun s => (@Polling A, s))
| net_getattr name : net_only (getattr name)
| net_setattr name v : net_only (setattr name v)
| net_print line : net_only (print line)
| net_sleep secs : net_only (time_sleep secs)
| net_read path : net_only (read_file path)
| net_bind {A B} (m : M A) (k : A -> M B) :
    net_only m -> (forall a, net_only (k a)) -> net_only (bind m k)
| net_send {B} r (k : response -> M B) :
    (forall resp, net_only (k resp)) ->
    (forall resp code, k (restatus code resp) = k resp) ->
    net_only (bind (send r) k)
| net_fresh {A} (m : M A) :
    net_only m -> net_only (fun s => m (with_self ∅ s)).

End Blind.
Export Blind.

(** ** Polls that do not end the loop *)

Module Turns.

(** [nonterminal_polls job_id secs s n s']: from [s], [get_job_data]
    reports [n] times a status outside the terminal set, each report
    followed by the status line and the sleep; [s'] is the state after
    the last sleep. *)
Inductive nonterminal_polls (job_id : pyval) (secs : Z) : state -> nat -> state -> Prop :=
| turns_none s : nonterminal_polls job_id secs s O s
| turns_next s job status s1 n s' :
    get_job_data job_id s = (Ok job, s1) ->
    getitem job "status" = Val status ->
    is_terminal status = false ->
    0 <= secs ->
    nonterminal_polls job_id secs (slept secs (printed status s1)) n s' ->
    nonterminal_polls job_id secs s (S n) s'.

End Turns.
Export Turns.

(** ** A second concrete service, for the driver *)

Module DriverDemo.

Definition body_resource_is (b : body) (resource : string) : bool :=
  match b with
  | JsonBody doc =>
      match getitem doc "resourceId" with
      | Val v => Demo.str_is v resource
      | Exc _ => false
      end
  | _ => false
  end.

(** The service of [Demo], which also takes the graph file, gives it a
    URN of its own, and knows a job that never leaves RUNNING, a job
    whose second poll is refused, and a job with a log record that has no
    path. *)
Definition service (history : list event) (r : request) : option response :=
  let url := r_url r in
  let at_ path := String.eqb url (Demo.api +:+ path) in
  if at_ "/flow/storage/v1/spaces/scratch:@default/resources/addTrees.json/upload-urls" then
    Some (Demo.json_reply 200
            (VDict [("urls"%string, VList [VDict [("url"%string, VStr "https://signed.example/put/graph")]]);
                    ("upload"%string, VDict [("resourceId"%string, VStr "addTrees.json");
                                             ("id"%string, VStr "upload-2")])]))
  else if String.eqb url "https://signed.example/put/graph" then
    Some (Response 200 [("etag"%string, "77aa"%string)] [] None)
  else if at_ "/flow/storage/v1/spaces/scratch:@default/uploads:complete"
          && body_resource_is (r_body r) "addTrees.json" then
    Some (Demo.json_reply 200 (VDict [("urn"%string, VStr "urn:adsk.flow:graph")]))
  else if at_ "/flow/compute/v1/queues/@default/jobs/job-9" then
    Some (Demo.json_reply 200 (VDict [("id"%string, VStr "job-9"); ("status"%string, VStr "RUNNING")]))
  else if at_ "/flow/compute/v1/queues/@default/jobs/job-11" then
    if (Demo.asked url history <? 1)%nat
    then Some (Demo.json_reply 200 (VDict [("id"%string, VStr "job-11"); ("status"%string, VStr "RUNNING")]))
    else Some (Demo.json_reply 401 Demo.error_body)
  else if at_ "/flow/compute/v1/queues/@default/jobs/job-10/logs" then
    Some (Demo.json_reply 200
            (VDict [("results"%string,
                      VList [Demo.record "log-1" "logs/task-0/stdout.txt";
                             VDict [("spaceId"%string, VStr "scratch:@default");
                                    ("resourceId"%string, VStr "log-2")];
                             Demo.record "log-2" "logs/task-0/stderr.txt"])]))
  else Demo.service history r.

(** Before the driver starts: the two input files beside the script. *)
Definition start : state :=
  State ∅ []
    (<["/repo/input-data/addTrees.json"%string := list_byte_of_string "{}"]>
       {[ "/repo/input-data/plane.usd"%string := list_byte_of_string "#usda 1.0" ]})
    service (fun _ => true).

(** Directories that can always be made. *)
Definition makedirs_ok (dir : string) : M unit := ret tt.

Definition connected : state := snd (new Demo.my_id Demo.my_secret Demo.my_queue start).

End DriverDemo.

(** ** Entries of a target directory *)

Module Inside.

(** A path that is no entry of [dir] under the naming of [k]. *)
Definition outside (k : listing) (dir path : string) : Prop :=
  forall name, contains_char "/" name = false -> path <> local_path k dir name.

End Inside.
Export Inside.

(** * Properties *)

(** ** The Python fragment on small inputs *)

Example basename_nested : basename "logs/run 1/stdout.txt" = "stdout.txt"%string.
Proof. reflexivity. Qed.

Example basename_trailing_slash : basename "a/b/" = EmptyString.
Proof. reflexivity. Qed.

Example basename_plain : basename "planeWithTrees.usd" = "planeWithTrees.usd"%string.
Proof. reflexivity. Qed.

Example py_str_of_string : py_str (VStr "a'b") = "a'b"%string.
Proof. reflexivity. Qed.

Example py_str_of_list :
  py_str (VList [VStr "x"; VInt (-3); VNone; VDict [("k"%string, VBool true)]])
  = "['x', -3, None, {'k': True}]"%string.
Proof. vm_compute. reflexivity. Qed.

Example truthy_of_credentials :
  map truthy [VNone; VStr EmptyString; VStr "my-id"; VInt 0] = [false; false; true; false].
Proof. reflexivity. Qed.

Example header_lookup_ignores_case :
  header_get [("Content-Length"%string, "9"%string); ("ETag"%string, "9f2c"%string)] "etag"
  = Some "9f2c"%string.
Proof. reflexivity. Qed.

Example iter_content_pieces :
  iter_content 4 (Response 200 [] (list_byte_of_string "#usda 1.0") None)
  = [list_byte_of_string "#usd"; list_byte_of_string "a 1."; list_byte_of_string "0"].
Proof. reflexivity. Qed.

Example connected_session :
  self_dict Demo.connected
  = session_dict Demo.my_id Demo.my_secret (VStr "tok123") Demo.my_queue.
Proof. vm_compute. reflexivity. Qed.

(** ** Reasoning about methods *)

Lemma bind_ok {A B} (m : M A) (k : A -> M B) s a s1 :
  m s = (Ok a, s1) -> bind m k s = k a s1.
Proof. intros H. unfold bind. now rewrite H. Qed.

Lemma bind_raise {A B} (m : M A) (k : A -> M B) s e s1 :
  m s = (Raise e, s1) -> bind m k s = (Raise e, s1).
Proof. intros H. unfold bind. now rewrite H. Qed.

Lemma bind_polling {A B} (m : M A) (k : A -> M B) s s1 :
  m s = (Polling, s1) -> bind m k s = (Polling, s1).
Proof. intros H. unfold bind. now rewrite H. Qed.

(** A [bind] that returns went through both halves. *)
Lemma bind_ok_inv {A B} (m : M A) (k : A -> M B) s b s' :
  bind m k s = (Ok b, s') ->
  exists a s1, m s = (Ok a, s1) /\ k a s1 = (Ok b, s').
Proof.
  unfold bind. destruct (m s) as [[a | e |] s1]; intros H; try discriminate.
  now exists a, s1.
Qed.

Lemma eval_ok_inv {A} (r : result A) s a s' :
  eval r s = (Ok a, s') -> r = Val a /\ s' = s.
Proof.
  destruct r; simpl; unfold ret, raise; intros H; inversion H; auto.
Qed.

Lemma getattr_ok_inv name s v s' :
  getattr name s = (Ok v, s') -> self_dict s !! name = Some v /\ s' = s.
Proof.
  unfold getattr. destruct (self_dict s !! name); intros H; inversion H; auto.
Qed.

Lemma send_ok_inv r s resp s' :
  send r s = (Ok resp, s') ->
  serve s (trace s) r = Some resp /\ s' = with_event (EvRequest r) s.
Proof.
  unfold send. destruct (serve s (trace s) r); intros H; inversion H; auto.
Qed.

Lemma response_json_ok_inv resp s j s' :
  response_json resp s = (Ok j, s') -> json_body resp = Some j /\ s' = s.
Proof.
  unfold response_json. destruct (json_body resp); unfold ret, raise;
    intros H; inversion H; auto.
Qed.

(** Peels one step off a hypothesis saying that a method returned. *)
Ltac ok_step H :=
  let a := fresh "a" in
  let s1 := fresh "s" in
  let H1 := fresh "H" in
  apply bind_ok_inv in H as (a & s1 & H1 & H);
  first
    [ apply eval_ok_inv in H1 as [H1 ->]
    | apply getattr_ok_inv in H1 as [H1 ->]
    | apply send_ok_inv in H1 as [H1 ->]
    | apply response_json_ok_inv in H1 as [H1 ->]
    | idtac ].

(** ** The frame: what no method touches *)

Section Frame.

Variable d : gmap string pyval.

Lemma frames_ret {A} (a : A) : frames_at d (ret a).
Proof.
  intros s r s' Hd H. inversion H; subst.
  repeat split; auto. exists []. split; auto.
Qed.

Lemma frames_raise {A} (e : exn) : frames_at d (@raise A e).
Proof.
  intros s r s' Hd H. inversion H; subst.
  repeat split; auto. exists []. split; auto.
Qed.

Lemma frames_eval {A} (x : result A) : frames_at d (eval x).
Proof. destruct x; [apply frames_ret | apply frames_raise]. Qed.

Lemma frames_bind {A B} (m : M A) (k : A -> M B) :
  frames_at d m -> (forall a, frames_at d (k a)) -> frames_at d (bind m k).
Proof.
  intros Hm Hk s r s' Hd H. unfold bind in H.
  destruct (m s) as [[a | e |] s1] eqn:Em.
  - destruct (Hm _ _ _ Hd Em) as (Hd1 & Hs1 & Hw1 & new1 & Ht1 & Hn1).
    destruct (Hk a _ _ _ Hd1 H) as (Hd2 & Hs2 & Hw2 & new2 & Ht2 & Hn2).
    repeat split; try congruence.
    exists (new2 ++ new1). split.
    + rewrite Ht2, Ht1. now rewrite app_assoc.
    + apply Forall_app; auto.
  - injection H as <- <-. now apply (Hm _ _ _ Hd Em).
  - injection H as <- <-. now apply (Hm _ _ _ Hd Em).
Qed.

(** Reading an attribute tells the rest of the method what the
    dictionary holds. *)
Lemma frames_getattr {B} name (k : pyval -> M B) :
  (forall v, d !! name = Some v -> frames_at d (k v)) ->
  frames_at d (bind (getattr name) k).
Proof.
  intros Hk s r s' Hd H. unfold bind, getattr in H.
  destruct (self_dict s !! name) as [v |] eqn:E.
  - apply (Hk v) with (r := r); auto. congruence.
  - injection H as <- <-. repeat split; auto. exists []. split; auto.
Qed.

Lemma frames_event (e : event) :
  event_ok d e -> frames_at d (fun s => (Ok tt, with_event e s)).
Proof.
  intros He s r s' Hd H. inversion H; subst. simpl.
  repeat split; auto. exists [e]. split; auto.
Qed.

Lemma frames_print line : frames_at d (print line).
Proof. apply frames_event. exact I. Qed.

Lemma frames_time_sleep secs : frames_at d (time_sleep secs).
Proof.
  intros s r s' Hd H. unfold time_sleep in H.
  destruct (secs <? 0); inversion H; subst; simpl; repeat split; auto.
  - exists []. split; auto.
  - exists [EvSleep secs]. split; auto. repeat constructor.
Qed.

Lemma frames_read_file path : frames_at d (read_file path).
Proof.
  intros s r s' Hd H. unfold read_file in H.
  destruct (files s !! path); inversion H; subst;
    repeat split; auto; exists []; split; auto.
Qed.

Lemma frames_open_wb path : frames_at d (open_wb path).
Proof.
  intros s r s' Hd H. unfold open_wb in H.
  destruct (writable s path); inversion H; subst; simpl;
    repeat split; auto; exists []; split; auto.
Qed.

Lemma frames_file_write path chunk : frames_at d (file_write path chunk).
Proof.
  intros s r s' Hd H. unfold file_write in H.
  destruct (files s !! path); inversion H; subst; simpl;
    repeat split; auto; exists []; split; auto.
Qed.

Lemma frames_for_each {A} (body : A -> M unit) l :
  (forall x, frames_at d (body x)) -> frames_at d (for_each body l).
Proof.
  intros Hb. induction l as [| x l IH]; simpl.
  - apply frames_ret.
  - apply frames_bind; auto.
Qed.

Lemma frames_send req : event_ok d (EvRequest req) -> frames_at d (send req).
Proof.
  intros He s r s' Hd H. unfold send in H.
  destruct (serve s (trace s) req); inversion H; subst; simpl;
    repeat split; auto; exists [EvRequest req]; split; auto.
Qed.

Lemma frames_response_json resp : frames_at d (response_json resp).
Proof.
  unfold response_json. destruct (json_body resp); [apply frames_ret | apply frames_raise].
Qed.

Lemma frames_response_header resp name : frames_at d (response_header resp name).
Proof.
  unfold response_header.
  destruct (header_get (headers resp) name); [apply frames_ret | apply frames_raise].
Qed.

Lemma service_request_ok token r :
  d !! "oauth_token"%string = Some token ->
  is_signed_transfer r = false -> r_headers r = bearer token ->
  event_ok d (EvRequest r).
Proof. intros Ht Hs Hh. simpl. rewrite Hs. eauto. Qed.

End Frame.

Create HintDb frames.

#[local] Hint Resolve frames_ret frames_raise frames_eval frames_print
  frames_time_sleep frames_read_file frames_open_wb frames_file_write
  frames_response_json frames_response_header : frames.

(** Walks through a method body, one statement at a time. *)
Ltac frames_step :=
  first
    [ apply frames_getattr; intros ? ?
    | apply frames_bind; [| intros ?]
    | apply frames_send;
      first [ reflexivity
            | eapply service_request_ok; [eassumption | reflexivity | reflexivity] ]
    | apply frames_for_each; intros ?
    | solve [auto with frames] ].

Ltac frames_auto := repeat frames_step.

Lemma frames_upload_file d p sp r : frames_at d (upload_file p sp r).
Proof.
  unfold upload_file, _get_resource_upload_url, _upload_to_signed_url, _complete_upload.
  frames_auto.
Qed.

Lemma frames_submit_job d j : frames_at d (submit_job j).
Proof. unfold submit_job. frames_auto. Qed.

Lemma frames_list_jobs d : frames_at d list_jobs.
Proof. unfold list_jobs. frames_auto. Qed.

Lemma frames_get_job_data d j : frames_at d (get_job_data j).
Proof. unfold get_job_data. frames_auto. Qed.

Lemma frames_wait d fuel j secs : frames_at d (wait_for_job_to_complete fuel j secs).
Proof.
  induction fuel as [| fuel IH]; simpl.
  - intros s r s' Hd H. inversion H; subst.
    repeat split; auto. exists []. split; auto.
  - apply frames_bind; [apply frames_get_job_data | intros job].
    apply frames_bind; [auto with frames | intros st].
    apply frames_bind; [auto with frames | intros _].
    apply frames_bind; [auto with frames | intros st'].
    destruct (is_terminal st'); [auto with frames |].
    apply frames_bind; [auto with frames | intros _]. exact IH.
Qed.

Lemma frames_download_file d sp r dest : frames_at d (download_file sp r dest).
Proof.
  unfold download_file, _get_download_url_for_resource, _download_file_from_signed_url.
  frames_auto.
  match goal with |- context [status_code ?a =? 200] => destruct (status_code a =? 200) end;
    frames_auto.
Qed.

Lemma frames_for_append d (body : pyval -> M string) items acc :
  (forall x, frames_at d (body x)) -> frames_at d (for_append body items acc).
Proof.
  intros Hb. revert acc. induction items as [| x items IH]; intros acc; simpl.
  - apply frames_ret.
  - apply frames_bind; auto.
Qed.

Lemma frames_download_job_logs d j dir : frames_at d (download_job_logs j dir).
Proof.
  unfold download_job_logs, _get_log_data. frames_auto.
  apply frames_for_append. intros x. unfold download_log.
  repeat (apply frames_bind; [first [apply frames_download_file | auto with frames] | intros ?]).
  auto with frames.
Qed.

Lemma frames_download_job_outputs d j dir : frames_at d (download_job_outputs j dir).
Proof.
  unfold download_job_outputs, _get_output_data. frames_auto.
  apply frames_for_append. intros x. unfold download_output.
  repeat (apply frames_bind; [first [apply frames_download_file | auto with frames] | intros ?]).
  auto with frames.
Qed.

(** Every public operation only reads the object. *)
Lemma frames_call d (o : op) : frames_at d (call o).
Proof.
  destruct o; simpl; unfold as_none, as_list;
    first [ apply frames_upload_file | apply frames_submit_job | apply frames_list_jobs
          | apply frames_get_job_data | apply frames_wait
          | apply frames_bind;
            [ first [ apply frames_download_file | apply frames_download_job_logs
                    | apply frames_download_job_outputs ]
            | intros ?; apply frames_ret ] ].
Qed.

(** ** The constructor *)

Lemma bind_assoc {A B C} (m : M A) (f : A -> M B) (g : B -> M C) s :
  bind (bind m f) g s = bind m (fun a => bind (f a) g) s.
Proof. unfold bind. destruct (m s) as [[a | e |] s1]; reflexivity. Qed.

Lemma getattr_run name v s :
  self_dict s !! name = Some v -> getattr name s = (Ok v, s).
Proof. intros H. unfold getattr. now rewrite H. Qed.

Lemma credentials_dict_id cid csec :
  credentials_dict cid csec !! "client_id"%string = Some cid.
Proof. unfold credentials_dict. rewrite lookup_insert_ne by discriminate. apply lookup_insert_eq. Qed.

Lemma credentials_dict_secret cid csec :
  credentials_dict cid csec !! "client_secret"%string = Some csec.
Proof. apply lookup_insert_eq. Qed.

(** What the constructor does, case by case. *)
Lemma new_unfold client_id client_secret queue_id s :
  new client_id client_secret queue_id s =
  let s2 := with_self (credentials_dict client_id client_secret) s in
  let s3 := with_event (EvRequest (token_request client_id client_secret)) s2 in
  if truthy client_id && truthy client_secret then
    match serve s (trace s) (token_request client_id client_secret) with
    | None => (Raise RequestException, s3)
    | Some resp =>
        match json_body resp with
        | None => (Raise JSONDecodeError, s3)
        | Some j =>
            match getitem j "access_token" with
            | Exc e => (Raise e, s3)
            | Val token =>
                (Ok tt, with_self (session_dict client_id client_secret token queue_id) s3)
            end
        end
    end
  else (Raise AssertionError, s2).
Proof.
  unfold new, __init__.
  do 2 (erewrite bind_ok by reflexivity).
  cbn [self_dict with_self trace files serve writable].
  fold (credentials_dict client_id client_secret).
  erewrite bind_ok by (apply getattr_run, credentials_dict_id).
  unfold py_assert.
  destruct (truthy client_id); cbn [andb].
  2: reflexivity.
  erewrite bind_ok by reflexivity.
  erewrite bind_ok by (apply getattr_run, credentials_dict_secret).
  destruct (truthy client_secret).
  2: reflexivity.
  erewrite bind_ok by reflexivity.
  unfold _generate_oauth_token.
  rewrite bind_assoc. erewrite bind_ok by (apply getattr_run, credentials_dict_id).
  rewrite bind_assoc. erewrite bind_ok by (apply getattr_run, credentials_dict_secret).
  rewrite bind_assoc. unfold bind at 1, send.
  cbn [self_dict with_self trace files serve writable].
  destruct (serve s (trace s) (token_request client_id client_secret)) as [resp |];
    [| reflexivity].
  rewrite bind_assoc. unfold bind at 1, response_json.
  destruct (json_body resp) as [j |]; cbn [ret raise]; [| reflexivity].
  unfold bind at 1.
  destruct (getitem j "access_token"); reflexivity.
Qed.

Lemma exn_class_not_AuthError e : exn_class e <> "AuthError"%string.
Proof. destruct e; discriminate. Qed.

Lemma session_dict_token cid csec token qid :
  session_dict cid csec token qid !! "oauth_token"%string = Some token.
Proof.
  unfold session_dict. rewrite lookup_insert_ne by discriminate. apply lookup_insert_eq.
Qed.

Lemma credentials_dict_no_token cid csec :
  credentials_dict cid csec !! "oauth_token"%string = None.
Proof.
  unfold credentials_dict. rewrite !lookup_insert_ne by discriminate. apply lookup_empty.
Qed.

(** C9: with a falsy client id or client secret the constructor raises
    [AssertionError] without having issued any request; whenever the
    constructor does issue a request, both credentials are truthy and the
    request is the credential exchange. *)
Theorem init_asserts_credentials client_id client_secret queue_id s r s' :
  new client_id client_secret queue_id s = (r, s') ->
  (truthy client_id = false \/ truthy client_secret = false ->
     r = Raise AssertionError /\ trace s' = trace s) /\
  (trace s' <> trace s ->
     truthy client_id = true /\ truthy client_secret = true /\
     trace s' = EvRequest (token_request client_id client_secret) :: trace s).
Proof.
  rewrite new_unfold. cbv zeta.
  destruct (truthy client_id) eqn:Ei, (truthy client_secret) eqn:Es; cbn [andb];
    intros H.
  2-4: injection H as <- <-; split;
       [ intros _; split; reflexivity | intros Hne; now destruct Hne ].
  split.
  - intros [? | ?]; discriminate.
  - intros _. repeat split.
    destruct (serve s (trace s) (token_request client_id client_secret)) as [resp |];
      [| now injection H as <- <-].
    destruct (json_body resp) as [j |]; [| now injection H as <- <-].
    destruct (getitem j "access_token"); now injection H as <- <-.
Qed.

Lemma init_asserts_credentials_witness :
  fst (new VNone Demo.my_secret Demo.my_queue Demo.fresh) = Raise AssertionError /\
  trace (snd (new VNone Demo.my_secret Demo.my_queue Demo.fresh)) = trace Demo.fresh.
Proof.
  apply (init_asserts_credentials VNone Demo.my_secret Demo.my_queue Demo.fresh
           _ _ (surjective_pairing _)).
  left. reflexivity.
Defined.

(** C3, as the code has it: when the reply of the authorization endpoint
    (of any status code, 401 and 403 included: the code never reads it)
    has no [access_token] to give, that is [response.json()['access_token']]
    raises [e], the constructor raises that same [e], which is not an
    [AuthError], and the object never gets an [oauth_token] attribute. *)
Theorem init_without_token_raises client_id client_secret queue_id s resp e :
  truthy client_id = true -> truthy client_secret = true ->
  serve s (trace s) (token_request client_id client_secret) = Some resp ->
  token_of resp = Exc e ->
  exists s',
    new client_id client_secret queue_id s = (Raise e, s') /\
    exn_class e <> "AuthError"%string /\
    self_dict s' !! "oauth_token"%string = None.
Proof.
  intros Hi Hs Hresp Htok. rewrite new_unfold. cbv zeta.
  rewrite Hi, Hs, Hresp. cbn [andb]. unfold token_of in Htok.
  destruct (json_body resp) as [j |].
  - rewrite Htok. eexists. split; [reflexivity |]. split.
    + apply exn_class_not_AuthError.
    + apply credentials_dict_no_token.
  - injection Htok as <-. eexists. split; [reflexivity |]. split.
    + discriminate.
    + apply credentials_dict_no_token.
Qed.

Lemma init_without_token_raises_witness :
  exists s',
    new Demo.my_id (VStr "wrong") Demo.my_queue Demo.fresh
    = (Raise (KeyError (VStr "access_token")), s') /\
    exn_class (KeyError (VStr "access_token")) <> "AuthError"%string /\
    self_dict s' !! "oauth_token"%string = None.
Proof.
  apply (init_without_token_raises Demo.my_id (VStr "wrong") Demo.my_queue Demo.fresh
           (Demo.json_reply 401 Demo.error_body));
    reflexivity.
Defined.

(** C3, as the spec words it, fails: on a 401 reply with the service's
    error body the constructor raises [KeyError], not an [AuthError]. *)
Lemma init_401_raises_KeyError :
  exists resp s',
    serve Demo.fresh (trace Demo.fresh) (token_request Demo.my_id (VStr "wrong")) = Some resp /\
    status_code resp = 401 /\
    new Demo.my_id (VStr "wrong") Demo.my_queue Demo.fresh
    = (Raise (KeyError (VStr "access_token")), s') /\
    exn_class (KeyError (VStr "access_token")) = "KeyError"%string /\
    "KeyError"%string <> "AuthError"%string.
Proof.
  exists (Demo.json_reply 401 Demo.error_body). eexists.
  split; [reflexivity |]. split; [reflexivity |].
  split; [rewrite new_unfold; reflexivity |].
  split; [reflexivity | discriminate].
Qed.

(** ** The stored session: read, never written *)

(** C10: no public operation changes the object's attribute dictionary,
    whatever the call's arguments, the state of the world and the way
    the call ends; in particular [oauth_token], [queue_id], [client_id]
    and [client_secret] keep the values the constructor gave them. *)
Theorem call_keeps_session_state (o : op) (s : state) :
  self_dict (snd (call o s)) = self_dict s /\
  Forall (fun name => self_dict (snd (call o s)) !! name = self_dict s !! name)
    ["oauth_token"; "queue_id"; "client_id"; "client_secret"]%string.
Proof.
  assert (H : self_dict (snd (call o s)) = self_dict s).
  { destruct (call o s) as [r s'] eqn:E.
    now destruct (frames_call (self_dict s) o s r s' eq_refl E) as [H _]. }
  split; [exact H |]. rewrite H. repeat constructor.
Qed.

Lemma Forall_requests_of (P : event -> Prop) (Q : request -> Prop) evs :
  (forall r, P (EvRequest r) -> Q r) ->
  Forall P evs -> Forall Q (requests_of evs).
Proof.
  intros HPQ H. unfold requests_of. apply Forall_rev in H.
  induction H as [| e l He _ IH]; simpl; [constructor |].
  destruct e; auto.
Qed.

(** C8: once the constructor has returned, the stored token is the
    [access_token] of the authorization reply, and every request that any
    later public operation sends to the service (every request but the
    two signed-URL transfers) has exactly the header
    [Authorization: Bearer <token>], with the token as [str] gives it,
    which for a string token is the token itself. *)
Theorem token_used_verbatim client_id client_secret queue_id s0 s1 :
  new client_id client_secret queue_id s0 = (Ok tt, s1) ->
  exists resp token,
    serve s0 (trace s0) (token_request client_id client_secret) = Some resp /\
    token_of resp = Val token /\
    self_dict s1 !! "oauth_token"%string = Some token /\
    (forall t, token = VStr t -> py_str token = t) /\
    forall (o : op) s r s',
      self_dict s = self_dict s1 -> call o s = (r, s') ->
      exists evs,
        trace s' = evs ++ trace s /\
        Forall (fun req =>
                  is_signed_transfer req = false ->
                  r_headers req = [("Authorization"%string, "Bearer " +:+ py_str token)])
               (requests_of evs).
Proof.
  rewrite new_unfold. cbv zeta.
  destruct (truthy client_id && truthy client_secret); [| discriminate].
  destruct (serve s0 (trace s0) (token_request client_id client_secret)) as [resp |] eqn:Er;
    [| discriminate].
  destruct (json_body resp) as [j |] eqn:Ej; [| discriminate].
  destruct (getitem j "access_token") as [token | e] eqn:Et; [| discriminate].
  intros H. injection H as <-. exists resp, token.
  cbn [self_dict with_self].
  split; [reflexivity |]. split; [unfold token_of; now rewrite Ej |].
  split; [apply session_dict_token |].
  split; [now intros t -> |].
  intros o s r s' Hd Hcall.
  destruct (frames_call _ o s r s' Hd Hcall) as (_ & _ & _ & evs & Ht & Hevs).
  exists evs. split; [exact Ht |].
  eapply Forall_requests_of; [| exact Hevs].
  intros req Hreq Hsig. simpl in Hreq. rewrite Hsig in Hreq.
  destruct Hreq as (token' & Hl & Hh).
  rewrite session_dict_token in Hl. injection Hl as <-. exact Hh.
Qed.

Lemma token_used_verbatim_witness :
  exists evs,
    trace (snd (call List_jobs Demo.connected)) = evs ++ trace Demo.connected /\
    Forall (fun req =>
              is_signed_transfer req = false ->
              r_headers req = [("Authorization"%string, "Bearer tok123"%string)])
           (requests_of evs).
Proof.
  destruct (token_used_verbatim Demo.my_id Demo.my_secret Demo.my_queue
              Demo.fresh Demo.connected eq_refl)
    as (resp & token & Hresp & Htok & _ & _ & Hcalls).
  vm_compute in Hresp. injection Hresp as <-.
  vm_compute in Htok. injection Htok as <-.
  apply (Hcalls List_jobs Demo.connected _ _ eq_refl (surjective_pairing _)).
Defined.

(** ** The polling loop *)

(** One turn of [while True]. *)
Lemma wait_step fuel job_id secs s :
  wait_for_job_to_complete (S fuel) job_id secs s =
  match get_job_data job_id s with
  | (Ok job, s1) =>
      match getitem job "status" with
      | Val status =>
          if is_terminal status then (Ok job, printed status s1)
          else if secs <? 0 then (Raise ValueError, printed status s1)
          else wait_for_job_to_complete fuel job_id secs (slept secs (printed status s1))
      | Exc e => (Raise e, s1)
      end
  | (Raise e, s1) => (Raise e, s1)
  | (Polling, s1) => (Polling, s1)
  end.
Proof.
  cbn [wait_for_job_to_complete]. unfold bind at 1.
  destruct (get_job_data job_id s) as [[job | e |] s1]; try reflexivity.
  unfold bind at 1.
  destruct (getitem job "status") as [status | e]; cbn [eval ret raise]; [| reflexivity].
  unfold bind, print, time_sleep, ret, printed, slept.
  destruct (is_terminal status); [reflexivity |].
  cbn [trace with_event].
  destruct (secs <? 0); reflexivity.
Qed.


Lemma wait_return_polls fuel : forall job_id secs s final s',
  wait_for_job_to_complete fuel job_id secs s = (Ok final, s') ->
  exists n, (n < fuel)%nat /\ polls_to job_id secs s n final s'.
Proof.
  induction fuel as [| fuel IH]; intros job_id secs s final s' H.
  - discriminate.
  - rewrite wait_step in H.
    destruct (get_job_data job_id s) as [[job | e |] s1] eqn:Hget; try discriminate.
    destruct (getitem job "status") as [status | e] eqn:Hst; try discriminate.
    destruct (is_terminal status) eqn:Hterm.
    + injection H as <- <-. exists O. split; [lia |]. eapply polls_last; eauto.
    + destruct (Z.ltb_spec secs 0); [discriminate |].
      apply IH in H as (n & Hn & Hp). exists (S n). split; [lia |].
      eapply polls_again; eauto.
Qed.



(** ** Downloading one file *)

Lemma chunks_fuel_concat size : (0 < size)%nat ->
  forall fuel data, (length data <= fuel)%nat ->
  concat (chunks_fuel fuel size data) = data.
Proof.
  intros Hsize. induction fuel as [| fuel IH]; intros data Hlen.
  - destruct data; [reflexivity | simpl in Hlen; lia].
  - destruct data as [| b data]; [reflexivity |].
    cbn [chunks_fuel concat]. rewrite IH.
    + apply take_drop.
    + rewrite length_drop. simpl in *. lia.
Qed.

(** Whatever the chunk size, the chunks of [iter_content] put back
    together are the body. *)
Lemma iter_content_concat size resp : (0 < size)%nat ->
  concat (iter_content size resp) = content resp.
Proof. intros H. apply chunks_fuel_concat; auto. Qed.

Lemma with_file_twice path d1 d2 s :
  with_file path d2 (with_file path d1 s) = with_file path d2 s.
Proof. unfold with_file. simpl. now rewrite insert_insert_eq. Qed.

Lemma for_each_file_write dest chunks : forall acc s,
  for_each (file_write dest) chunks (with_file dest acc s)
  = (Ok tt, with_file dest (acc ++ concat chunks) s).
Proof.
  induction chunks as [| c chunks IH]; intros acc s; simpl.
  - unfold ret. now rewrite app_nil_r.
  - unfold bind, file_write at 1. cbn [files with_file].
    rewrite lookup_insert_eq. fold (with_file dest (acc ++ c) (with_file dest acc s)).
    rewrite with_file_twice, IH. now rewrite <- app_assoc.
Qed.

(** What [download_file] does, case by case, on an object that holds a
    token. *)
Lemma download_file_unfold space_id resource_id dest token s :
  self_dict s !! "oauth_token"%string = Some token ->
  download_file space_id resource_id dest s =
  let q1 := download_url_request token space_id resource_id in
  let s1 := with_event (EvRequest q1) s in
  match serve s (trace s) q1 with
  | None => (Raise RequestException, s1)
  | Some reply1 =>
      match json_body reply1 with
      | None => (Raise JSONDecodeError, s1)
      | Some j =>
          match getitem j "url" with
          | Exc e => (Raise e, s1)
          | Val url =>
              let q2 := signed_get_request url in
              let s2 := with_event (EvRequest q2) s1 in
              match serve s (trace s1) q2 with
              | None => (Raise RequestException, s2)
              | Some reply2 =>
                  if status_code reply2 =? 200 then
                    if writable s dest then (Ok tt, with_file dest (content reply2) s2)
                    else (Raise OSError, s2)
                  else (Ok tt, s2)
              end
          end
      end
  end.
Proof.
  intros Htok. cbv zeta.
  unfold download_file, _get_download_url_for_resource.
  rewrite !bind_assoc. erewrite bind_ok by (apply getattr_run, Htok).
  rewrite bind_assoc. unfold bind at 1, send.
  destruct (serve s (trace s) (download_url_request token space_id resource_id))
    as [reply1 |]; [| reflexivity].
  unfold bind at 1, response_json.
  destruct (json_body reply1) as [j |]; cbn [ret raise]; [| reflexivity].
  unfold bind at 1.
  destruct (getitem j "url") as [url | e]; cbn [eval ret raise]; [| reflexivity].
  unfold _download_file_from_signed_url, bind at 1, send.
  cbn [serve trace with_event].
  destruct (serve s _ (signed_get_request url)) as [reply2 |]; [| reflexivity].
  destruct (status_code reply2 =? 200); [| reflexivity].
  unfold bind, open_wb. cbn [writable with_event].
  destruct (writable s dest); [| reflexivity].
  rewrite for_each_file_write. cbn [app].
  rewrite iter_content_concat; [reflexivity |].
  apply Nat.ltb_lt. vm_compute. reflexivity.
Qed.

(** C2, as the code has it: when the signed URL answers with a status
    other than 200, [download_file] raises nothing: it returns [None],
    having sent its two requests and written no file. *)
Theorem download_file_skips_non_200
    space_id resource_id dest token s reply1 j url reply2 :
  self_dict s !! "oauth_token"%string = Some token ->
  serve s (trace s) (download_url_request token space_id resource_id) = Some reply1 ->
  json_body reply1 = Some j ->
  getitem j "url" = Val url ->
  serve s (EvRequest (download_url_request token space_id resource_id) :: trace s)
    (signed_get_request url) = Some reply2 ->
  status_code reply2 <> 200 ->
  exists s',
    download_file space_id resource_id dest s = (Ok tt, s') /\
    files s' = files s /\
    trace s' = EvRequest (signed_get_request url)
               :: EvRequest (download_url_request token space_id resource_id)
               :: trace s.
Proof.
  intros Htok H1 Hj Hurl H2 Hcode.
  rewrite (download_file_unfold _ _ _ token) by exact Htok. cbv zeta.
  rewrite H1, Hj, Hurl. cbn [trace with_event]. rewrite H2.
  destruct (Z.eqb_spec (status_code reply2) 200); [contradiction |].
  eexists. split; [reflexivity |]. split; reflexivity.
Qed.

Lemma download_file_skips_non_200_witness :
  exists s',
    download_file (VStr "scratch:@default") (VStr "log-2") ".logs/joblog_stderr.txt"
      Demo.connected = (Ok tt, s') /\
    files s' = files Demo.connected /\
    trace s' = EvRequest (signed_get_request (VStr "https://signed.example/get/log-2"))
               :: EvRequest (download_url_request (VStr "tok123")
                               (VStr "scratch:@default") (VStr "log-2"))
               :: trace Demo.connected.
Proof.
  apply (download_file_skips_non_200 _ _ _ (VStr "tok123") Demo.connected
           (Demo.json_reply 200 (VDict [("url"%string, VStr "https://signed.example/get/log-2")]))
           (VDict [("url"%string, VStr "https://signed.example/get/log-2")])
           (VStr "https://signed.example/get/log-2")
           (Response 404 [] (list_byte_of_string "NoSuchKey") None));
    try reflexivity.
  discriminate.
Defined.

(** C2, as the spec words it, fails: the signed URL answers 404 and
    [download_file] returns normally, leaving no file at the destination. *)
Lemma download_file_404_returns_normally :
  exists reply s',
    serve Demo.connected
      (EvRequest (download_url_request (VStr "tok123") (VStr "scratch:@default") (VStr "log-2"))
         :: trace Demo.connected)
      (signed_get_request (VStr "https://signed.example/get/log-2")) = Some reply /\
    status_code reply = 404 /\
    download_file (VStr "scratch:@default") (VStr "log-2") ".logs/joblog_stderr.txt"
      Demo.connected = (Ok tt, s') /\
    files s' !! ".logs/joblog_stderr.txt"%string = None.
Proof.
  eexists. eexists.
  split; [vm_compute; reflexivity |].
  split; [reflexivity |].
  split; [vm_compute; reflexivity |].
  vm_compute. reflexivity.
Qed.

(** ** Uploading one file *)

(** Runs a pure expression at the head of a method. *)
Ltac eval_head x :=
  unfold bind at 1; destruct x; cbn [eval ret raise and_then]; [| try reflexivity].

(** What [upload_file] does, case by case, on an object that holds a
    token. *)
Lemma upload_file_unfold path space_id resource_id token s :
  self_dict s !! "oauth_token"%string = Some token ->
  upload_file path space_id resource_id s =
  let q1 := upload_urls_request token space_id resource_id in
  let s1 := with_event (EvRequest q1) s in
  match serve s (trace s) q1 with
  | None => (Raise RequestException, s1)
  | Some reply1 =>
  match json_body reply1 with
  | None => (Raise JSONDecodeError, s1)
  | Some j1 =>
  match signed_url_of j1 with
  | Exc e => (Raise e, s1)
  | Val signedUrl =>
  match files s !! path with
  | None => (Raise OSError, s1)
  | Some data =>
  let q2 := put_request signedUrl data in
  let s2 := with_event (EvRequest q2) s1 in
  match serve s (trace s1) q2 with
  | None => (Raise RequestException, s2)
  | Some reply2 =>
  match header_get (headers reply2) "etag" with
  | None => (Raise (KeyError (VStr "etag")), s2)
  | Some etag =>
  match upload_ids j1 with
  | Exc e => (Raise e, s2)
  | Val (upload_resource, upload_id) =>
  let q3 := complete_request token space_id upload_resource upload_id (VStr etag) in
  let s3 := with_event (EvRequest q3) s2 in
  match serve s (trace s2) q3 with
  | None => (Raise RequestException, s3)
  | Some reply3 =>
  match json_body reply3 with
  | None => (Raise JSONDecodeError, s3)
  | Some j3 =>
  match getitem j3 "urn" with
  | Exc e => (Raise e, s3)
  | Val urn => (Ok urn, s3)
  end end end end end end end end end end.
Proof.
  intros Htok. cbv zeta.
  unfold upload_file, _get_resource_upload_url.
  rewrite !bind_assoc. erewrite bind_ok by (apply getattr_run, Htok).
  rewrite bind_assoc. unfold bind at 1, send.
  destruct (serve s (trace s) (upload_urls_request token space_id resource_id))
    as [reply1 |]; [| reflexivity].
  unfold bind at 1, response_json.
  destruct (json_body reply1) as [j1 |]; cbn [ret raise]; [| reflexivity].
  unfold signed_url_of.
  eval_head (getitem j1 "urls").
  eval_head (getindex a 0).
  eval_head (getitem a0 "url").
  unfold _upload_to_signed_url. rewrite bind_assoc.
  unfold bind at 1, read_file. cbn [files with_event].
  destruct (files s !! path) as [data |]; [| reflexivity].
  rewrite bind_assoc. unfold bind at 1, send. cbn [serve trace with_event].
  destruct (serve s _ (put_request a1 data)) as [reply2 |]; [| reflexivity].
  unfold bind at 1, response_header.
  destruct (header_get (headers reply2) "etag") as [etag |]; cbn [ret raise];
    [| reflexivity].
  unfold upload_ids.
  eval_head (getitem j1 "upload").
  eval_head (getitem a2 "resourceId").
  erewrite bind_ok by reflexivity.
  eval_head (getitem a2 "id").
  unfold _complete_upload. rewrite !bind_assoc.
  erewrite bind_ok by (apply getattr_run, Htok).
  rewrite bind_assoc. unfold bind at 1, send. cbn [serve trace with_event].
  destruct (serve s _ (complete_request token space_id a3 a4 (VStr etag)))
    as [reply3 |]; [| reflexivity].
  unfold bind at 1, response_json.
  destruct (json_body reply3) as [j3 |]; [| reflexivity].
  unfold bind, ret. cbv beta iota.
  destruct (getitem j3 "urn"); reflexivity.
Qed.






(** ** The batch downloads *)

(** What a batch download does up to its loop, on an object that holds
    a queue and a token. *)
Lemma download_job_unfold k job_id dir token queue_id s :
  self_dict s !! "queue_id"%string = Some queue_id ->
  self_dict s !! "oauth_token"%string = Some token ->
  download_job k job_id dir s =
  let q := listing_request k token queue_id job_id in
  let s1 := with_event (EvRequest q) s in
  match serve s (trace s) q with
  | None => (Raise RequestException, s1)
  | Some reply =>
      match json_body reply with
      | None => (Raise JSONDecodeError, s1)
      | Some j =>
          match records_of j with
          | Exc e => (Raise e, s1)
          | Val records => for_append (download_one k dir) records [] s1
          end
      end
  end.
Proof.
  intros Hq Htok. cbv zeta.
  destruct k; cbn [download_job listing_request download_one];
    unfold download_job_logs, download_job_outputs, _get_log_data, _get_output_data;
    rewrite !bind_assoc;
    (erewrite bind_ok by (apply getattr_run, Hq));
    rewrite bind_assoc;
    (erewrite bind_ok by (apply getattr_run, Htok));
    rewrite bind_assoc; unfold bind at 1, send;
    (match goal with |- context [serve s (trace s) ?q] =>
       destruct (serve s (trace s) q) as [reply |]; [| reflexivity] end);
    unfold bind at 1, response_json;
    (destruct (json_body reply) as [j |]; cbn [ret raise]; [| reflexivity]);
    unfold records_of, and_then;
    unfold bind at 1;
    (destruct (getitem j "results") as [results |]; cbn [eval ret raise]; [| reflexivity]);
    unfold bind at 1;
    (destruct (py_iter results) as [records |]; cbn [eval ret raise]; reflexivity).
Qed.

(** C7: when the listing reply holds no record, [download_job_logs] and
    [download_job_outputs] return the empty list, having sent the listing
    request and nothing else. *)
Theorem download_job_empty_listing k job_id dir token queue_id s reply j :
  self_dict s !! "queue_id"%string = Some queue_id ->
  self_dict s !! "oauth_token"%string = Some token ->
  serve s (trace s) (listing_request k token queue_id job_id) = Some reply ->
  json_body reply = Some j ->
  records_of j = Val [] ->
  download_job k job_id dir s
  = (Ok [], with_event (EvRequest (listing_request k token queue_id job_id)) s).
Proof.
  intros Hq Htok Hreply Hj Hrecords.
  rewrite (download_job_unfold k job_id dir token queue_id) by assumption.
  cbv zeta. now rewrite Hreply, Hj, Hrecords.
Qed.

Lemma download_job_empty_listing_witness :
  download_job_logs (VStr "job-8") ".logs" Demo.connected
  = (Ok [], with_event (EvRequest (logs_request (VStr "tok123") (VStr "@default") (VStr "job-8")))
              Demo.connected) /\
  download_job_outputs (VStr "job-8") ".outputs" Demo.connected
  = (Ok [], with_event (EvRequest (outputs_request (VStr "tok123") (VStr "@default") (VStr "job-8")))
              Demo.connected).
Proof.
  split.
  - apply (download_job_empty_listing Logs (VStr "job-8") ".logs"
             (VStr "tok123") (VStr "@default") Demo.connected
             (Demo.json_reply 200 (VDict [("results"%string, VList [])]))
             (VDict [("results"%string, VList [])]));
      reflexivity.
  - apply (download_job_empty_listing Outputs (VStr "job-8") ".outputs"
             (VStr "tok123") (VStr "@default") Demo.connected
             (Demo.json_reply 200 (VDict [("results"%string, VList [])]))
             (VDict [("results"%string, VList [])]));
      reflexivity.
Defined.

(** One turn of a download loop that returns: the record had its three
    fields and went through [download_file]. *)
Lemma download_one_ok_inv k dir record s path s' :
  download_one k dir record s = (Ok path, s') ->
  exists p space_id resource_id,
    getitem record "path" = Val (VStr p) /\
    getitem record "spaceId" = Val space_id /\
    getitem record "resourceId" = Val resource_id /\
    path = local_path k dir (basename p) /\
    download_file space_id resource_id path s = (Ok tt, s').
Proof.
  intros H.
  assert (H' : (path0 <- eval (getitem record "path");;
                base <- eval (os_path_basename path0);;
                space_id <- eval (getitem record "spaceId");;
                resource_id <- eval (getitem record "resourceId");;
                download_file space_id resource_id (local_path k dir base);;
                ret (local_path k dir base)) s = (Ok path, s')).
  { destruct k; exact H. }
  clear H. ok_step H'. ok_step H'. ok_step H'. ok_step H'. ok_step H'.
  destruct a as [| | | p | |]; try discriminate. injection H0 as <-.
  injection H' as <- <-. destruct a3.
  exists p, a1, a2. auto.
Qed.

Lemma download_one_ok k dir record p space_id resource_id s s' :
  getitem record "path" = Val (VStr p) ->
  getitem record "spaceId" = Val space_id ->
  getitem record "resourceId" = Val resource_id ->
  download_file space_id resource_id (local_path k dir (basename p)) s = (Ok tt, s') ->
  download_one k dir record s = (Ok (local_path k dir (basename p)), s').
Proof.
  intros Hp Hs Hr Hd.
  destruct k; cbn [download_one local_path] in *;
    unfold download_log, download_output, bind, eval, ret;
    rewrite Hp; cbn [os_path_basename]; rewrite Hs, Hr, Hd; reflexivity.
Qed.

Lemma for_append_downloaded k dir records : forall acc s paths s',
  for_append (download_one k dir) records acc s = (Ok paths, s') ->
  exists new, paths = acc ++ new /\ downloaded_each k dir records s new s'.
Proof.
  induction records as [| record records IH]; intros acc s paths s' H.
  - injection H as <- <-. exists []. split; [now rewrite app_nil_r | constructor].
  - cbn [for_append] in H. apply bind_ok_inv in H as (path & s1 & H1 & H).
    apply download_one_ok_inv in H1 as (p & sp & rid & Hp & Hs & Hr & -> & Hd).
    apply IH in H as (new & -> & Hnew).
    exists (local_path k dir (basename p) :: new). split.
    + now rewrite <- app_assoc.
    + econstructor; eauto.
Qed.

Lemma downloaded_for_append k dir records s new s' :
  downloaded_each k dir records s new s' ->
  forall acc, for_append (download_one k dir) records acc s = (Ok (acc ++ new), s').
Proof.
  induction 1 as [s | record p sp rid rest s s1 paths s' Hp Hs Hr Hd _ IH]; intros acc.
  - cbn. unfold ret. now rewrite app_nil_r.
  - cbn [for_append].
    rewrite (bind_ok _ _ _ _ _ (download_one_ok k dir _ _ _ _ _ _ Hp Hs Hr Hd)).
    rewrite IH. now rewrite <- app_assoc.
Qed.

(** The local paths follow the records, one for one. *)
Lemma downloaded_each_paths k dir records s paths s' :
  downloaded_each k dir records s paths s' ->
  Forall2 (fun record path =>
             exists p, getitem record "path" = Val (VStr p) /\
                       path = local_path k dir (basename p))
          records paths.
Proof.
  induction 1; constructor; eauto.
Qed.

(** A batch download that returns went through the listing and then
    through each record. *)
Lemma download_job_ok_inv k job_id dir s paths s' :
  download_job k job_id dir s = (Ok paths, s') ->
  exists token queue_id reply j records,
    self_dict s !! "queue_id"%string = Some queue_id /\
    self_dict s !! "oauth_token"%string = Some token /\
    serve s (trace s) (listing_request k token queue_id job_id) = Some reply /\
    json_body reply = Some j /\
    records_of j = Val records /\
    downloaded_each k dir records
      (with_event (EvRequest (listing_request k token queue_id job_id)) s) paths s'.
Proof.
  intros H.
  destruct (self_dict s !! "queue_id"%string) as [queue_id |] eqn:Hq.
  2: { destruct k; cbn [download_job] in H;
       unfold download_job_logs, download_job_outputs, _get_log_data, _get_output_data in H;
       rewrite !bind_assoc in H; unfold bind at 1, getattr in H;
       rewrite Hq in H; discriminate. }
  destruct (self_dict s !! "oauth_token"%string) as [token |] eqn:Htok.
  2: { destruct k; cbn [download_job] in H;
       unfold download_job_logs, download_job_outputs, _get_log_data, _get_output_data in H;
       rewrite !bind_assoc in H;
       (erewrite bind_ok in H by (apply getattr_run, Hq));
       rewrite bind_assoc in H; unfold bind at 1, getattr in H;
       rewrite Htok in H; discriminate. }
  rewrite (download_job_unfold k job_id dir token queue_id) in H by assumption.
  cbv zeta in H.
  destruct (serve s (trace s) _) as [reply |] eqn:Hreply; [| discriminate].
  destruct (json_body reply) as [j |] eqn:Hj; [| discriminate].
  destruct (records_of j) as [records |] eqn:Hrec; [| discriminate].
  apply for_append_downloaded in H as (new & -> & Hnew).
  exists token, queue_id, reply, j, records. auto 10.
Qed.

(** C4: when [download_job_logs] or [download_job_outputs] returns, its
    list of paths is as long as the list of records of the listing
    reply, and the path at each position is the local path of the record
    at that position. *)
Theorem download_job_paths_follow_records k job_id dir s paths s' :
  download_job k job_id dir s = (Ok paths, s') ->
  exists token queue_id reply j records,
    self_dict s !! "queue_id"%string = Some queue_id /\
    self_dict s !! "oauth_token"%string = Some token /\
    serve s (trace s) (listing_request k token queue_id job_id) = Some reply /\
    json_body reply = Some j /\
    records_of j = Val records /\
    length paths = length records /\
    forall i record, records !! i = Some record ->
      exists p, getitem record "path" = Val (VStr p) /\
                paths !! i = Some (local_path k dir (basename p)).
Proof.
  intros H.
  apply download_job_ok_inv in H
    as (token & queue_id & reply & j & records & Hq & Htok & Hreply & Hj & Hrec & Hd).
  exists token, queue_id, reply, j, records.
  repeat (split; [assumption |]).
  apply downloaded_each_paths in Hd. split.
  - symmetry. eapply Forall2_length; eauto.
  - intros i record Hi.
    destruct (Forall2_lookup_l _ _ _ _ _ Hd Hi) as (path & Hpath & p & Hp & ->).
    eauto.
Qed.

Lemma download_job_paths_follow_records_witness :
  (exists token queue_id reply j records,
     self_dict Demo.connected !! "queue_id"%string = Some queue_id /\
     self_dict Demo.connected !! "oauth_token"%string = Some token /\
     serve Demo.connected (trace Demo.connected)
       (listing_request Logs token queue_id (VStr "job-7")) = Some reply /\
     json_body reply = Some j /\
     records_of j = Val records /\
     length [".logs/joblog_stdout.txt"; ".logs/joblog_stderr.txt"]%string = length records /\
     forall i record, records !! i = Some record ->
       exists p, getitem record "path" = Val (VStr p) /\
                 [".logs/joblog_stdout.txt"; ".logs/joblog_stderr.txt"]%string !! i
                 = Some (local_path Logs ".logs" (basename p))) /\
  (exists token queue_id reply j records,
     self_dict Demo.connected !! "queue_id"%string = Some queue_id /\
     self_dict Demo.connected !! "oauth_token"%string = Some token /\
     serve Demo.connected (trace Demo.connected)
       (listing_request Outputs token queue_id (VStr "job-7")) = Some reply /\
     json_body reply = Some j /\
     records_of j = Val records /\
     length [".outputs/planeWithTrees.usd"%string] = length records /\
     forall i record, records !! i = Some record ->
       exists p, getitem record "path" = Val (VStr p) /\
                 [".outputs/planeWithTrees.usd"%string] !! i
                 = Some (local_path Outputs ".outputs" (basename p))).
Proof.
  split.
  - apply (download_job_paths_follow_records Logs (VStr "job-7") ".logs" Demo.connected
             [".logs/joblog_stdout.txt"; ".logs/joblog_stderr.txt"]%string
             (snd (download_job_logs (VStr "job-7") ".logs" Demo.connected))).
    vm_compute. reflexivity.
  - apply (download_job_paths_follow_records Outputs (VStr "job-7") ".outputs" Demo.connected
             [".outputs/planeWithTrees.usd"%string]
             (snd (download_job_outputs (VStr "job-7") ".outputs" Demo.connected))).
    vm_compute. reflexivity.
Defined.

(** [download_file] leaves every file but its destination alone,
    however it ends. *)
Lemma download_file_other_files space_id resource_id dest s r s' path :
  download_file space_id resource_id dest s = (r, s') ->
  path <> dest -> files s' !! path = files s !! path.
Proof.
  intros H Hne.
  destruct (self_dict s !! "oauth_token"%string) as [token |] eqn:Htok.
  - rewrite (download_file_unfold _ _ _ token) in H by exact Htok. cbv zeta in H.
    repeat match type of H with
           | match ?x with _ => _ end = _ => destruct x
           | (if ?x then _ else _) = _ => destruct x
           end;
      injection H as <- <-; cbn [files with_event with_file]; try reflexivity.
    now apply lookup_insert_ne.
  - unfold download_file, _get_download_url_for_resource in H.
    rewrite !bind_assoc in H. unfold bind at 1, getattr in H. rewrite Htok in H.
    now injection H as <- <-.
Qed.

(** X15: when the download URL resolves and the signed URL answers 200
    on a destination that can be opened, [download_file] returns with the
    destination holding exactly the body of the signed reply. *)
Lemma download_file_200_writes
    space_id resource_id dest token s reply1 j url reply2 :
  self_dict s !! "oauth_token"%string = Some token ->
  serve s (trace s) (download_url_request token space_id resource_id) = Some reply1 ->
  json_body reply1 = Some j ->
  getitem j "url" = Val url ->
  serve s (EvRequest (download_url_request token space_id resource_id) :: trace s)
    (signed_get_request url) = Some reply2 ->
  status_code reply2 = 200 ->
  writable s dest = true ->
  exists s',
    download_file space_id resource_id dest s = (Ok tt, s') /\
    files s' = <[dest := content reply2]> (files s).
Proof.
  intros Htok H1 Hj Hurl H2 Hcode Hw.
  rewrite (download_file_unfold _ _ _ token) by exact Htok. cbv zeta.
  rewrite H1, Hj, Hurl. cbn [trace with_event]. rewrite H2, Hcode, Hw.
  eexists. split; reflexivity.
Qed.

Lemma downloaded_each_other_files k dir records s paths s' :
  downloaded_each k dir records s paths s' ->
  forall path, path ∉ paths -> files s' !! path = files s !! path.
Proof.
  induction 1 as [s | record p sp rid rest s s1 paths s' Hp Hs Hr Hd _ IH];
    intros path Hnot; [reflexivity |].
  apply not_elem_of_cons in Hnot as [Hne Hnot].
  rewrite (IH _ Hnot). eapply download_file_other_files; eauto.
Qed.

(** C5, as the code has it: when [download_job_logs] returns, every
    record of the logs listing went, in order, through [download_file]
    towards [<logdir>/joblog_<basename of the record's path>], the list
    returned is the list of these destinations, and no file outside this
    list was touched.  ([download_file] writes the destination on a 200
    and skips it otherwise: [download_file_200_writes] and C2.) *)
Theorem download_job_logs_joblog_names job_id logdir s paths s' :
  download_job_logs job_id logdir s = (Ok paths, s') ->
  exists token queue_id reply j records,
    self_dict s !! "queue_id"%string = Some queue_id /\
    self_dict s !! "oauth_token"%string = Some token /\
    serve s (trace s) (logs_request token queue_id job_id) = Some reply /\
    json_body reply = Some j /\
    records_of j = Val records /\
    downloaded_each Logs logdir records
      (with_event (EvRequest (logs_request token queue_id job_id)) s) paths s' /\
    Forall2 (fun record path =>
               exists p, getitem record "path" = Val (VStr p) /\
                         path = logdir +:+ "/joblog_" +:+ basename p)
            records paths /\
    forall path, path ∉ paths -> files s' !! path = files s !! path.
Proof.
  intros H.
  apply (download_job_ok_inv Logs) in H
    as (token & queue_id & reply & j & records & Hq & Htok & Hreply & Hj & Hrec & Hd).
  exists token, queue_id, reply, j, records.
  repeat (split; [assumption |]). split.
  - exact (downloaded_each_paths _ _ _ _ _ _ Hd).
  - intros path Hnot.
    now rewrite (downloaded_each_other_files _ _ _ _ _ _ Hd path Hnot).
Qed.

Lemma download_job_logs_joblog_names_witness :
  exists token queue_id reply j records,
    self_dict Demo.connected !! "queue_id"%string = Some queue_id /\
    self_dict Demo.connected !! "oauth_token"%string = Some token /\
    serve Demo.connected (trace Demo.connected)
      (logs_request token queue_id (VStr "job-7")) = Some reply /\
    json_body reply = Some j /\
    records_of j = Val records /\
    downloaded_each Logs ".logs" records
      (with_event (EvRequest (logs_request token queue_id (VStr "job-7"))) Demo.connected)
      [".logs/joblog_stdout.txt"; ".logs/joblog_stderr.txt"]%string
      (snd (download_job_logs (VStr "job-7") ".logs" Demo.connected)) /\
    Forall2 (fun record path =>
               exists p, getitem record "path" = Val (VStr p) /\
                         path = ".logs" +:+ "/joblog_" +:+ basename p)
            records [".logs/joblog_stdout.txt"; ".logs/joblog_stderr.txt"]%string /\
    forall path, path ∉ [".logs/joblog_stdout.txt"; ".logs/joblog_stderr.txt"]%string ->
      files (snd (download_job_logs (VStr "job-7") ".logs" Demo.connected)) !! path
      = files Demo.connected !! path.
Proof.
  apply (download_job_logs_joblog_names (VStr "job-7") ".logs" Demo.connected).
  vm_compute. reflexivity.
Defined.

(** C5, as the spec words it, fails: the log whose path ends in
    [stdout.txt] is written to [.logs/joblog_stdout.txt], nothing is
    written under the bare basename, and the list returned names
    [.logs/joblog_stderr.txt], which was never written (its signed URL
    answered 404). *)
Lemma download_job_logs_not_under_basename :
  exists s',
    download_job_logs (VStr "job-7") ".logs" Demo.connected
    = (Ok [".logs/joblog_stdout.txt"; ".logs/joblog_stderr.txt"]%string, s') /\
    files s' !! ".logs/joblog_stdout.txt"%string = Some (list_byte_of_string "started") /\
    files s' !! ".logs/stdout.txt"%string = None /\
    files s' !! ".logs/joblog_stderr.txt"%string = None /\
    files s' !! ".logs/stderr.txt"%string = None.
Proof.
  eexists. split; [vm_compute; reflexivity |].
  repeat split; vm_compute; reflexivity.
Qed.

(** ** More on the polling loop *)

(** The terminal set is matched exactly, upper case included. *)
Example is_terminal_upper_case :
  map is_terminal [VStr "SUCCEEDED"; VStr "FAILED"; VStr "CANCELED";
                   VStr "RUNNING"; VStr "succeeded"; VNone]
  = [true; true; true; false; false; false].
Proof. reflexivity. Qed.

(** The record the loop returns carries a terminal status. *)
Lemma polls_to_final_terminal job_id secs s n final s' :
  polls_to job_id secs s n final s' ->
  exists status, getitem final "status" = Val status /\ is_terminal status = true.
Proof. induction 1; eauto. Qed.

Lemma get_job_data_ok_inv job_id s job s1 :
  get_job_data job_id s = (Ok job, s1) ->
  exists token queue_id,
    self_dict s !! "queue_id"%string = Some queue_id /\
    self_dict s !! "oauth_token"%string = Some token /\
    s1 = with_event (EvRequest (job_request token queue_id job_id)) s.
Proof.
  intros H. unfold get_job_data in H.
  ok_step H. ok_step H. ok_step H.
  apply response_json_ok_inv in H as [_ ->]. eauto.
Qed.

Lemma sleeps_app evs1 evs2 : sleeps (evs1 ++ evs2) = (sleeps evs1 + sleeps evs2)%nat.
Proof.
  induction evs1 as [| e evs1 IH]; [reflexivity |].
  destruct e; cbn; now rewrite IH.
Qed.

Lemma requests_of_app evs1 evs2 :
  requests_of (evs1 ++ evs2) = requests_of evs2 ++ requests_of evs1.
Proof. unfold requests_of. now rewrite rev_app_distr, omap_app. Qed.

(** [n] reports outside the terminal set cost [n] sleeps and [n + 1]
    status requests. *)
Lemma polls_to_effects job_id secs s n final s' :
  polls_to job_id secs s n final s' ->
  exists evs,
    trace s' = evs ++ trace s /\
    sleeps evs = n /\
    length (requests_of evs) = S n.
Proof.
  induction 1 as [s job status s1 Hget Hst Hterm
                 | s job status s1 n final s' Hget Hst Hterm Hsecs _ IH].
  - apply get_job_data_ok_inv in Hget as (token & queue_id & _ & _ & ->).
    eexists [_; _]. split; [reflexivity |]. split; reflexivity.
  - apply get_job_data_ok_inv in Hget as (token & queue_id & _ & _ & ->).
    destruct IH as (evs & Ht & Hsl & Hrq).
    exists (evs ++ [EvSleep secs; EvPrint ("Job status: " +:+ py_str status);
                    EvRequest (job_request token queue_id job_id)]).
    split; [| split].
    + rewrite Ht. cbn [trace slept printed with_event]. now rewrite <- app_assoc.
    + rewrite sleeps_app, Hsl. cbn. lia.
    + rewrite requests_of_app, length_app, Hrq. reflexivity.
Qed.

(** X12: as long as the service reports one same status outside the
    terminal set, the loop never returns: whatever the fuel, it is still
    polling. *)
Lemma wait_keeps_polling job_id secs token queue_id serve0 reply job status :
  (forall history, serve0 history (job_request token queue_id job_id) = Some reply) ->
  json_body reply = Some job ->
  getitem job "status" = Val status ->
  is_terminal status = false ->
  0 <= secs ->
  forall fuel s,
    serve s = serve0 ->
    self_dict s !! "queue_id"%string = Some queue_id ->
    self_dict s !! "oauth_token"%string = Some token ->
    fst (wait_for_job_to_complete fuel job_id secs s) = Polling.
Proof.
  intros Hserve Hjob Hst Hterm Hsecs.
  induction fuel as [| fuel IH]; intros s Hs Hq Htok; [reflexivity |].
  rewrite wait_step.
  assert (Hget : get_job_data job_id s
                 = (Ok job, with_event (EvRequest (job_request token queue_id job_id)) s)).
  { unfold get_job_data.
    erewrite bind_ok by (apply getattr_run, Hq).
    erewrite bind_ok by (apply getattr_run, Htok).
    unfold bind, send, response_json. rewrite Hs, Hserve, Hjob. reflexivity. }
  rewrite Hget, Hst, Hterm.
  destruct (Z.ltb_spec secs 0); [lia |].
  apply IH; assumption.
Qed.

(** * Further properties of the client and of the driver *)

(** ** What only the downloads do *)

Lemma net_eval {A} (x : result A) : net_only (eval x).
Proof. destruct x; constructor. Qed.

Lemma net_py_assert v : net_only (py_assert v).
Proof. unfold py_assert. destruct (truthy v); constructor. Qed.

Lemma net_response_json resp : net_only (response_json resp).
Proof. unfold response_json. destruct (json_body resp); constructor. Qed.

Lemma net_response_header resp name : net_only (response_header resp name).
Proof.
  unfold response_header. destruct (header_get (headers resp) name); constructor.
Qed.

(** Builds the derivation along a method body. *)
Ltac net_step :=
  first
    [ apply net_send; [intros ? | intros ? ?; reflexivity]
    | apply net_bind; [| intros ?]
    | apply net_eval | apply net_py_assert
    | apply net_response_json | apply net_response_header
    | constructor ].

Ltac net_auto := repeat net_step.

Lemma net_generate_oauth_token : net_only _generate_oauth_token.
Proof. unfold _generate_oauth_token. net_auto. Qed.

Lemma net_new cid csec qid : net_only (new cid csec qid).
Proof.
  unfold new. apply (net_fresh (__init__ cid csec qid)).
  unfold __init__.
  repeat (apply net_bind; [first [apply net_generate_oauth_token | net_step] | intros ?]).
  constructor.
Qed.

Lemma net_upload_file p sp r : net_only (upload_file p sp r).
Proof.
  unfold upload_file, _get_resource_upload_url, _upload_to_signed_url, _complete_upload.
  net_auto.
Qed.

Lemma net_submit_job j : net_only (submit_job j).
Proof. unfold submit_job. net_auto. Qed.

Lemma net_list_jobs : net_only list_jobs.
Proof. unfold list_jobs. net_auto. Qed.

Lemma net_get_job_data j : net_only (get_job_data j).
Proof. unfold get_job_data. net_auto. Qed.

Lemma net_wait fuel j secs : net_only (wait_for_job_to_complete fuel j secs).
Proof.
  induction fuel as [| fuel IH]; cbn [wait_for_job_to_complete]; [constructor |].
  apply net_bind; [apply net_get_job_data | intros job].
  apply net_bind; [apply net_eval | intros st].
  apply net_bind; [constructor | intros _].
  apply net_bind; [apply net_eval | intros st'].
  destruct (is_terminal st'); [constructor |].
  apply net_bind; [constructor | intros _; exact IH].
Qed.

Lemma net_call o : is_download o = false -> net_only (call o).
Proof.
  destruct o; cbn [is_download call]; intros H; try discriminate;
    first [ apply net_upload_file | apply net_submit_job | apply net_list_jobs
          | apply net_get_job_data | apply net_wait ].
Qed.

Lemma net_only_files {A} (m : M A) :
  net_only m -> forall s, files (snd (m s)) = files s.
Proof.
  induction 1 as [A a | A e | A | name | name v | line | secs | path
                 | A B m k _ IHm _ IHk | B r k _ IHk _ | A m _ IHm]; intros s;
    try reflexivity.
  - unfold getattr. now destruct (self_dict s !! name).
  - unfold time_sleep. now destruct (secs <? 0).
  - unfold read_file. now destruct (files s !! path).
  - unfold bind. specialize (IHm s).
    destruct (m s) as [[a | e |] s1]; cbn [snd] in *; [| assumption | assumption].
    now rewrite IHk.
  - unfold bind, send. destruct (serve s (trace s) r) as [resp |]; [| reflexivity].
    now rewrite IHk.
  - now rewrite IHm.
Qed.

Lemma net_only_status_blind {A} (m : M A) :
  net_only m -> forall recode s,
  m (with_status recode s) = (fst (m s), with_status recode (snd (m s))).
Proof.
  induction 1 as [A a | A e | A | name | name v | line | secs | path
                 | A B m k _ IHm _ IHk | B r k _ IHk Hk | A m _ IHm]; intros recode s;
    try reflexivity.
  - unfold getattr. cbn [self_dict with_status]. now destruct (self_dict s !! name).
  - unfold time_sleep. now destruct (secs <? 0).
  - unfold read_file. cbn [files with_status]. now destruct (files s !! path).
  - unfold bind. rewrite IHm.
    destruct (m s) as [[a | e |] s1]; cbn [fst snd]; [| reflexivity | reflexivity].
    rewrite IHk. now destruct (k a s1).
  - unfold bind, send. cbn [serve trace with_status].
    destruct (serve s (trace s) r) as [resp |]; [| reflexivity].
    rewrite Hk.
    change (with_event (EvRequest r) (with_status recode s))
      with (with_status recode (with_event (EvRequest r) s)).
    rewrite IHk. now destruct (k resp (with_event (EvRequest r) s)).
  - change (with_self ∅ (with_status recode s)) with (with_status recode (with_self ∅ s)).
    apply IHm.
Qed.

(** X1: the constructor and every public operation other than the three
    downloads give the same result, the same requests and the same files
    whatever status codes the service puts on its replies: none of them
    reads [status_code]. *)
Theorem service_calls_ignore_status recode s :
  (forall cid csec qid,
     new cid csec qid (with_status recode s)
     = (fst (new cid csec qid s), with_status recode (snd (new cid csec qid s)))) /\
  (forall o, is_download o = false ->
     call o (with_status recode s)
     = (fst (call o s), with_status recode (snd (call o s)))).
Proof.
  split.
  - intros cid csec qid. apply net_only_status_blind, net_new.
  - intros o Ho. now apply net_only_status_blind, net_call.
Qed.

(** X2: neither the constructor nor a public operation other than the
    three downloads changes a local file, however it ends. *)
Theorem only_downloads_write_files s :
  (forall cid csec qid, files (snd (new cid csec qid s)) = files s) /\
  (forall o, is_download o = false -> files (snd (call o s)) = files s).
Proof.
  split.
  - intros cid csec qid. apply net_only_files, net_new.
  - intros o Ho. now apply net_only_files, net_call.
Qed.

(** On the sample service: with every status code turned into 503,
    [get_job_data] answers as before, and [upload_file] leaves the files
    as they were. *)
Lemma service_calls_ignore_status_witness :
  fst (call (Get_job_data (VStr "job-7"))
         (with_status (fun _ _ _ => 503) Demo.connected))
  = Ok (VDict [("id"%string, VStr "job-7"); ("status"%string, VStr "RUNNING")]).
Proof.
  rewrite (proj2 (service_calls_ignore_status (fun _ _ _ => 503) Demo.connected)
             (Get_job_data (VStr "job-7")) eq_refl).
  reflexivity.
Defined.

Lemma only_downloads_write_files_witness :
  files (snd (call (Upload_file "input-data/plane.usd" (VStr "scratch:@default")
                      (VStr "plane.usd")) Demo.connected))
  = files Demo.connected.
Proof.
  apply (proj2 (only_downloads_write_files Demo.connected)). reflexivity.
Defined.

(** ** No second credential exchange *)

(** X3: no public operation sends the credential exchange again, for any
    credentials: the token is never renewed after construction. *)
Theorem no_operation_reauthenticates (o : op) (s : state) :
  exists evs,
    trace (snd (call o s)) = evs ++ trace s /\
    Forall (fun req => forall cid csec, req <> token_request cid csec) (requests_of evs).
Proof.
  destruct (call o s) as [r s'] eqn:E.
  destruct (frames_call (self_dict s) o s r s' eq_refl E) as (_ & _ & _ & evs & Ht & Hevs).
  exists evs. split; [exact Ht |].
  eapply Forall_requests_of; [| exact Hevs].
  intros req Hreq cid csec ->. simpl in Hreq.
  destruct Hreq as (token & _ & Hh). discriminate.
Qed.

(** ** Where the downloads write *)

Lemma ascii_eqb_sym (a b : ascii) : Ascii.eqb a b = Ascii.eqb b a.
Proof.
  destruct (Ascii.eqb_spec a b) as [-> | Hne].
  - now rewrite Ascii.eqb_refl.
  - symmetry. apply Ascii.eqb_neq. congruence.
Qed.

Lemma basename_from_no_slash p : forall tail,
  (contains_char "/" p = false -> contains_char "/" tail = false) ->
  contains_char "/" (basename_from tail p) = false.
Proof.
  induction p as [| c rest IH]; intros tail Htail; cbn [basename_from].
  - now apply Htail.
  - cbn [contains_char] in Htail. rewrite ascii_eqb_sym in Htail.
    destruct (Ascii.eqb c "/"); apply IH; auto.
Qed.

(** [os.path.basename] never gives a name with a slash in it. *)
Lemma basename_no_slash p : contains_char "/" (basename p) = false.
Proof. apply basename_from_no_slash. auto. Qed.

(** X4: every path that [download_job_logs] or [download_job_outputs]
    returns is the target directory, a slash (and [joblog_] for logs) and
    a name without any slash: whatever directories the record's path goes
    through, the local path names an entry of the target directory. *)
Theorem download_job_paths_inside_dir k job_id dir s paths s' :
  download_job k job_id dir s = (Ok paths, s') ->
  Forall (fun path => exists name,
            path = local_path k dir name /\ contains_char "/" name = false)
         paths.
Proof.
  intros H.
  apply download_job_ok_inv in H
    as (token & queue_id & reply & j & records & _ & _ & _ & _ & _ & Hd).
  apply downloaded_each_paths in Hd. clear - Hd.
  induction Hd as [| record path records paths Hp _ IH]; constructor; auto.
  destruct Hp as (p & _ & ->).
  exists (basename p). split; [reflexivity | apply basename_no_slash].
Qed.

Lemma download_job_paths_inside_dir_witness :
  Forall (fun path => exists name,
            path = local_path Outputs ".outputs" name /\ contains_char "/" name = false)
         [".outputs/planeWithTrees.usd"%string].
Proof.
  apply (download_job_paths_inside_dir Outputs (VStr "job-7") ".outputs" Demo.connected _
           (snd (download_job_outputs (VStr "job-7") ".outputs" Demo.connected))).
  vm_compute. reflexivity.
Defined.

Lemma download_one_outside k dir record s r s' path :
  download_one k dir record s = (r, s') ->
  outside k dir path -> files s' !! path = files s !! path.
Proof.
  intros H Hout.
  assert (H' : (path0 <- eval (getitem record "path");;
                base <- eval (os_path_basename path0);;
                space_id <- eval (getitem record "spaceId");;
                resource_id <- eval (getitem record "resourceId");;
                download_file space_id resource_id (local_path k dir base);;
                ret (local_path k dir base)) s = (r, s')).
  { destruct k; exact H. }
  clear H. unfold bind in H'.
  destruct (getitem record "path") as [v |]; cbn [eval ret raise] in H';
    [| now injection H' as <- <-].
  destruct v as [| | | p | |]; cbn [os_path_basename eval ret raise] in H';
    try (now injection H' as <- <-).
  destruct (getitem record "spaceId") as [sp |]; cbn [eval ret raise] in H';
    [| now injection H' as <- <-].
  destruct (getitem record "resourceId") as [rid |]; cbn [eval ret raise] in H';
    [| now injection H' as <- <-].
  destruct (download_file sp rid (local_path k dir (basename p)) s) as [r1 s1] eqn:Hd.
  assert (Hs : s' = s1) by (destruct r1; now injection H' as <- <-).
  subst s'. eapply download_file_other_files; [exact Hd |].
  apply Hout, basename_no_slash.
Qed.

Lemma for_append_outside k dir records path : outside k dir path ->
  forall acc s r s',
  for_append (download_one k dir) records acc s = (r, s') ->
  files s' !! path = files s !! path.
Proof.
  intros Hout. induction records as [| record records IH]; intros acc s r s' H.
  - now injection H as <- <-.
  - cbn [for_append] in H. unfold bind in H.
    destruct (download_one k dir record s) as [r1 s1] eqn:H1.
    pose proof (download_one_outside _ _ _ _ _ _ _ H1 Hout) as Hf.
    destruct r1 as [p | e |]; [| now injection H as <- <- | now injection H as <- <-].
    rewrite <- Hf. eapply IH; eauto.
Qed.

(** A batch download either ends before its loop, with the files as
    they were, or ends as its loop does. *)
Lemma download_job_cases k job_id dir s r s' :
  download_job k job_id dir s = (r, s') ->
  files s' = files s \/
  exists records s1,
    files s1 = files s /\
    for_append (download_one k dir) records [] s1 = (r, s').
Proof.
  intros H.
  destruct (self_dict s !! "queue_id"%string) as [queue_id |] eqn:Hq.
  2: { left. destruct k; cbn [download_job] in H;
       unfold download_job_logs, download_job_outputs, _get_log_data, _get_output_data in H;
       rewrite !bind_assoc in H; unfold bind at 1, getattr in H;
       rewrite Hq in H; now injection H as <- <-. }
  destruct (self_dict s !! "oauth_token"%string) as [token |] eqn:Htok.
  2: { left. destruct k; cbn [download_job] in H;
       unfold download_job_logs, download_job_outputs, _get_log_data, _get_output_data in H;
       rewrite !bind_assoc in H;
       (erewrite bind_ok in H by (apply getattr_run, Hq));
       rewrite bind_assoc in H; unfold bind at 1, getattr in H;
       rewrite Htok in H; now injection H as <- <-. }
  rewrite (download_job_unfold k job_id dir token queue_id) in H by assumption.
  cbv zeta in H.
  destruct (serve s (trace s) _) as [reply |]; [| left; now injection H as <- <-].
  destruct (json_body reply) as [j |]; [| left; now injection H as <- <-].
  destruct (records_of j) as [records |]; [| left; now injection H as <- <-].
  right. eexists _, _. split; [| exact H]. reflexivity.
Qed.

(** X5: however a batch download ends, a file that is not an entry of
    the target directory under the batch's naming (directory, slash,
    [joblog_] for logs, a name without slash) is as it was before. *)
Theorem download_job_writes_inside_dir k job_id dir s r s' path :
  download_job k job_id dir s = (r, s') ->
  (forall name, contains_char "/" name = false -> path <> local_path k dir name) ->
  files s' !! path = files s !! path.
Proof.
  intros H Hout.
  apply download_job_cases in H as [-> | (records & s1 & Hf & H)]; [reflexivity |].
  rewrite <- Hf. eapply for_append_outside; eauto.
Qed.

Lemma download_job_writes_inside_dir_witness :
  files (snd (download_job_logs (VStr "job-7") ".logs" Demo.connected))
    !! "input-data/plane.usd"%string
  = files Demo.connected !! "input-data/plane.usd"%string.
Proof.
  apply (download_job_writes_inside_dir Logs (VStr "job-7") ".logs" Demo.connected
           _ _ "input-data/plane.usd" (surjective_pairing _)).
  intros name _. discriminate.
Defined.

(** ** A record that cannot be downloaded *)

Lemma for_append_stops k dir done : forall s1 paths s2,
  downloaded_each k dir done s1 paths s2 ->
  forall bad e s3 rest acc,
  download_one k dir bad s2 = (Raise e, s3) ->
  for_append (download_one k dir) (done ++ bad :: rest) acc s1 = (Raise e, s3).
Proof.
  induction 1 as [s | record p sp rid done s s1 paths s' Hp Hs Hr Hd _ IH];
    intros bad e s3 rest acc Hbad.
  - cbn [app for_append]. now apply bind_raise.
  - cbn [app for_append].
    rewrite (bind_ok _ _ _ _ _ (download_one_ok k dir _ _ _ _ _ _ Hp Hs Hr Hd)).
    now apply IH.
Qed.

(** X6: a batch download stops at the first record it cannot download:
    when the records before it went through and its own turn raises [e],
    the batch raises [e] in the state that turn left; the records after
    it are never asked for, and the paths already written are not
    returned. *)
Theorem download_job_stops_at_first_failure
    k job_id dir token queue_id s reply j done bad rest paths s2 e s3 :
  self_dict s !! "queue_id"%string = Some queue_id ->
  self_dict s !! "oauth_token"%string = Some token ->
  serve s (trace s) (listing_request k token queue_id job_id) = Some reply ->
  json_body reply = Some j ->
  records_of j = Val (done ++ bad :: rest) ->
  downloaded_each k dir done
    (with_event (EvRequest (listing_request k token queue_id job_id)) s) paths s2 ->
  download_one k dir bad s2 = (Raise e, s3) ->
  download_job k job_id dir s = (Raise e, s3).
Proof.
  intros Hq Htok Hreply Hj Hrec Hdone Hbad.
  rewrite (download_job_unfold k job_id dir token queue_id) by assumption.
  cbv zeta. rewrite Hreply, Hj, Hrec.
  eapply for_append_stops; eauto.
Qed.

Lemma download_job_stops_at_first_failure_witness :
  exists s3,
    download_job_logs (VStr "job-10") ".logs" DriverDemo.connected
    = (Raise (KeyError (VStr "path")), s3) /\
    files s3 !! ".logs/joblog_stdout.txt"%string = Some (list_byte_of_string "started") /\
    length (requests_of (take 3 (trace s3))) = 3%nat /\
    trace s3 = take 3 (trace s3) ++ trace DriverDemo.connected.
Proof.
  eexists. split.
  - eapply (download_job_stops_at_first_failure Logs (VStr "job-10") ".logs"
              (VStr "tok123") (VStr "@default") DriverDemo.connected)
      with (done := [Demo.record "log-1" "logs/task-0/stdout.txt"])
           (bad := VDict [("spaceId"%string, VStr "scratch:@default");
                          ("resourceId"%string, VStr "log-2")])
           (rest := [Demo.record "log-2" "logs/task-0/stderr.txt"]).
    + reflexivity.
    + reflexivity.
    + vm_compute. reflexivity.
    + reflexivity.
    + reflexivity.
    + eapply downloaded_next;
        [reflexivity | reflexivity | reflexivity | | apply downloaded_none].
      vm_compute. reflexivity.
    + vm_compute. reflexivity.
  - repeat split; vm_compute; reflexivity.
Defined.

(** ** The streamed download *)

(** X7: for every chunk size above zero, when the signed URL answers 200
    and the destination can be opened, [_download_file_from_signed_url]
    leaves at the destination exactly the body of the reply, in place of
    whatever the file held, and touches nothing else. *)
Theorem signed_download_writes_whole_body signedUrl dest chunk_size s reply :
  (0 < chunk_size)%nat ->
  serve s (trace s) (signed_get_request signedUrl) = Some reply ->
  status_code reply = 200 ->
  writable s dest = true ->
  _download_file_from_signed_url signedUrl dest chunk_size s
  = (Ok tt, with_file dest (content reply)
              (with_event (EvRequest (signed_get_request signedUrl)) s)).
Proof.
  intros Hsize Hreply Hcode Hw.
  unfold _download_file_from_signed_url, bind, send.
  rewrite Hreply, Hcode. cbn [Z.eqb Pos.eqb].
  unfold open_wb. cbn [writable with_event]. rewrite Hw.
  rewrite for_each_file_write. cbn [app].
  now rewrite iter_content_concat.
Qed.

Lemma signed_download_writes_whole_body_witness :
  _download_file_from_signed_url (VStr "https://signed.example/get/out-1")
    "input-data/plane.usd" 3 Demo.connected
  = (Ok tt, with_file "input-data/plane.usd" (list_byte_of_string "#usda 1.0")
              (with_event (EvRequest (signed_get_request (VStr "https://signed.example/get/out-1")))
                 Demo.connected)).
Proof.
  apply (signed_download_writes_whole_body _ _ 3 Demo.connected
           (Response 200 [] (list_byte_of_string "#usda 1.0") None));
    [lia | reflexivity | reflexivity | reflexivity].
Defined.

(** ** An upload that does not finish *)

(** X8: when the local file cannot be read, [upload_file] raises
    [OSError] only after it has asked the service for the upload URLs:
    that request is the one effect of the call, and neither the PUT nor
    the completion is sent. *)
Theorem upload_file_missing_file path space_id resource_id token s reply1 j1 signedUrl :
  self_dict s !! "oauth_token"%string = Some token ->
  serve s (trace s) (upload_urls_request token space_id resource_id) = Some reply1 ->
  json_body reply1 = Some j1 ->
  signed_url_of j1 = Val signedUrl ->
  files s !! path = None ->
  upload_file path space_id resource_id s
  = (Raise OSError,
     with_event (EvRequest (upload_urls_request token space_id resource_id)) s).
Proof.
  intros Htok H1 Hj Hurl Hfile.
  rewrite (upload_file_unfold _ _ _ token) by exact Htok. cbv zeta.
  now rewrite H1, Hj, Hurl, Hfile.
Qed.

Lemma upload_file_missing_file_witness :
  upload_file "input-data/tree.usd" (VStr "scratch:@default") (VStr "plane.usd")
    Demo.connected
  = (Raise OSError,
     with_event (EvRequest (upload_urls_request (VStr "tok123") (VStr "scratch:@default")
                              (VStr "plane.usd")))
       Demo.connected).
Proof.
  eapply (upload_file_missing_file _ _ _ (VStr "tok123") Demo.connected);
    [reflexivity | vm_compute; reflexivity | reflexivity | reflexivity | reflexivity].
Defined.



(** ** The polling loop and failures *)

(** X10: the loop retries on a status, never on a failure: when, after
    [n] reports outside the terminal set, a poll raises [e] (the
    request fails, the reply is no JSON) or its reply has no [status] to
    read (subscripting raises [e]), [wait_for_job_to_complete] raises [e]
    at once, in the state that poll left, for every fuel above [n]. *)
Theorem wait_raises_at_first_failed_poll fuel job_id secs s n s1 e s2 :
  nonterminal_polls job_id secs s n s1 ->
  (n < fuel)%nat ->
  get_job_data job_id s1 = (Raise e, s2) \/
  (exists job, get_job_data job_id s1 = (Ok job, s2) /\ getitem job "status" = Exc e) ->
  wait_for_job_to_complete fuel job_id secs s = (Raise e, s2).
Proof.
  intros Hpolls. revert fuel.
  induction Hpolls as [s | s job status s1' n s' Hget Hst Hterm Hsecs _ IH];
    intros [| fuel] Hfuel Hfail; try lia; rewrite wait_step.
  - destruct Hfail as [Hget | (job & Hget & Hst)]; rewrite Hget; [reflexivity |].
    now rewrite Hst.
  - rewrite Hget, Hst, Hterm. destruct (Z.ltb_spec secs 0); [lia |].
    apply IH; [lia | exact Hfail].
Qed.

Lemma wait_raises_at_first_failed_poll_witness :
  exists s2,
    wait_for_job_to_complete 10 (VStr "job-11") 5 DriverDemo.connected
    = (Raise (KeyError (VStr "status")), s2) /\
    length (requests_of (take 4 (trace s2))) = 2%nat /\
    trace s2 = take 4 (trace s2) ++ trace DriverDemo.connected.
Proof.
  eexists. split.
  - eapply (wait_raises_at_first_failed_poll 10 (VStr "job-11") 5 DriverDemo.connected 1).
    + eapply turns_next; [vm_compute; reflexivity | reflexivity | reflexivity | lia |].
      apply turns_none.
    + lia.
    + right. eexists. split; [vm_compute; reflexivity | reflexivity].
  - split; vm_compute; reflexivity.
Defined.

(** X11: a wait that returns has sent one status request more than it
    has slept: after [n] reports outside the terminal set it has sent
    [n + 1] requests and slept [n] times, and the record it returns has
    a terminal status. *)
Theorem wait_costs_one_request_per_turn fuel job_id secs s final s' :
  wait_for_job_to_complete fuel job_id secs s = (Ok final, s') ->
  exists n evs status,
    (n < fuel)%nat /\
    trace s' = evs ++ trace s /\
    sleeps evs = n /\
    length (requests_of evs) = S n /\
    getitem final "status" = Val status /\ is_terminal status = true.
Proof.
  intros H. apply wait_return_polls in H as (n & Hn & Hp).
  destruct (polls_to_effects _ _ _ _ _ _ Hp) as (evs & Ht & Hsl & Hrq).
  destruct (polls_to_final_terminal _ _ _ _ _ _ Hp) as (status & Hst & Hterm).
  exists n, evs, status. auto 10.
Qed.

Lemma wait_costs_one_request_per_turn_witness :
  exists n evs status,
    (n < 10)%nat /\
    trace (snd (wait_for_job_to_complete 10 (VStr "job-7") 5 Demo.connected))
    = evs ++ trace Demo.connected /\
    sleeps evs = n /\
    length (requests_of evs) = S n /\
    getitem (VDict [("id"%string, VStr "job-7"); ("status"%string, VStr "SUCCEEDED")]) "status"
    = Val status /\
    is_terminal status = true.
Proof.
  apply (wait_costs_one_request_per_turn 10 (VStr "job-7") 5 Demo.connected).
  vm_compute. reflexivity.
Defined.

Lemma wait_keeps_polling_witness :
  fst (wait_for_job_to_complete 50 (VStr "job-9") 5 DriverDemo.connected) = Polling.
Proof.
  apply (wait_keeps_polling (VStr "job-9") 5 (VStr "tok123") (VStr "@default")
           DriverDemo.service
           (Demo.json_reply 200
              (VDict [("id"%string, VStr "job-9"); ("status"%string, VStr "RUNNING")]))
           (VDict [("id"%string, VStr "job-9"); ("status"%string, VStr "RUNNING")])
           (VStr "RUNNING"));
    try reflexivity.
  lia.
Defined.

(** ** The driver *)

(** X13: started with a client id or a client secret that is falsy (an
    unset environment variable gives [None]), [main] ends in
    [AssertionError] before it has printed, requested or written
    anything. *)
Theorem main_asserts_credentials makedirs script_dir fuel cid csec trees s :
  truthy cid = false \/ truthy csec = false ->
  exists s',
    main makedirs script_dir fuel cid csec trees s = (Raise AssertionError, s') /\
    trace s' = trace s /\ files s' = files s.
Proof.
  intros Hfalsy. unfold main.
  assert (Hnew : new cid csec (VStr "@default") s
                 = (Raise AssertionError, with_self (credentials_dict cid csec) s)).
  { rewrite new_unfold. cbv zeta.
    destruct Hfalsy as [-> | ->]; [reflexivity |].
    now rewrite andb_false_r. }
  rewrite (bind_raise _ _ _ _ _ Hnew). eexists. split; [reflexivity |]. split; reflexivity.
Qed.

Lemma main_asserts_credentials_witness :
  exists s',
    main DriverDemo.makedirs_ok "/repo" 10 VNone VNone (VInt 100) DriverDemo.start
    = (Raise AssertionError, s') /\
    trace s' = trace DriverDemo.start /\ files s' = files DriverDemo.start.
Proof.
  apply main_asserts_credentials. left. reflexivity.
Defined.



(** ** The queue of the session *)




Lemma download_file_200_writes_witness :
  exists s',
    download_file (VStr "scratch:@default") (VStr "out-1") ".outputs/planeWithTrees.usd"
      Demo.connected = (Ok tt, s') /\
    files s' = <[".outputs/planeWithTrees.usd"%string := list_byte_of_string "#usda 1.0"]>
                 (files Demo.connected).
Proof.
  apply (download_file_200_writes (VStr "scratch:@default") (VStr "out-1")
           ".outputs/planeWithTrees.usd" (VStr "tok123") Demo.connected
           (Demo.json_reply 200 (VDict [("url"%string, VStr "https://signed.example/get/out-1")]))
           (VDict [("url"%string, VStr "https://signed.example/get/out-1")])
           (VStr "https://signed.example/get/out-1")
           (Response 200 [] (list_byte_of_string "#usda 1.0") None));
    reflexivity.
Defined.
